(** * UX AI Audit System: the configuration module [src/config.py]

    A shallow embedding of the configuration module and the properties
    that its specification states about it.

    The module body runs top to bottom when the module is imported:
    it creates three directories, reads the process environment into
    module-level settings, and defines static reference data.  The one
    function of the module, [validate_config], reads three of the settings,
    prints to standard output and may raise.

    Modelling choices.
    - Text is [string] (a sequence of bytes; non-ASCII text is its UTF-8
      encoding).
    - [os.environ], after [load_dotenv()] has merged the override file into
      it, is a finite map [gmap string string].
    - An exception is a value of [exn]; code that may raise returns a
      [result].
    - The file system is a finite map from paths to nodes, threaded
      explicitly through the directory-creating calls.
    - [print] appends a line to the standard output, which [validate_config]
      threads through a small state-and-error monad [IO].
    - The logging set-up of lines 60-70 reads no setting other than
      [LOG_LEVEL]; it belongs to the standard library and is a parameter
      where the whole script is run ([script]). *)

From Stdlib Require Import ZArith Lia Ascii String.
From stdpp Require Import base option list strings gmap fin_maps.

Open Scope string_scope.
Open Scope Z_scope.

(** ** Exceptions and results *)

(** The [errno] values that [os.mkdir] reports, each with the [OSError]
    subclass Python raises for it. *)
Inductive errno :=
| EEXIST    (* FileExistsError *)
| ENOENT    (* FileNotFoundError *)
| ENOTDIR   (* NotADirectoryError *)
| EACCES.   (* PermissionError *)

Inductive exn :=
| ValueError (msg : string)         (* raise ValueError(msg) *)
| ValueError_int (literal : string) (* the ValueError that int(literal) raises *)
| OSError (e : errno).

Inductive result (A : Type) :=
| Ok (a : A)
| Raise (e : exn).
Arguments Ok {A} a.
Arguments Raise {A} e.

Definition rbind {A B} (r : result A) (k : A -> result B) : result B :=
  match r with
  | Ok a => k a
  | Raise e => Raise e
  end.

Notation "x <- r ;; k" := (rbind r (fun x => k))
  (at level 100, r at next level, right associativity).

Definition is_ValueError (e : exn) : bool :=
  match e with
  | ValueError _ | ValueError_int _ => true
  | OSError _ => false
  end.

(** ** Python built-ins used by the module *)

(** Truth value of an [Optional[str]]: [None] and the empty string are
    false, every other string is true. *)
Definition truthy (o : option string) : bool :=
  match o with
  | None => false
  | Some "" => false
  | Some (String _ _) => true
  end.

(** [sep.join(parts)]. *)
Fixpoint join (sep : string) (parts : list string) : string :=
  match parts with
  | [] => ""
  | [p] => p
  | p :: rest => p +:+ sep +:+ join sep rest
  end.

(** [needle in s]. *)
Definition mentions (needle s : string) : bool :=
  match String.index 0 needle s with
  | Some _ => true
  | None => false
  end.

(** [os.getenv(key)]: the value of the variable, [None] when it is unset. *)
Definition getenv (environ : gmap string string) (key : string) : option string :=
  environ !! key.

(** [os.getenv(key, default)] with a string default. *)
Definition getenv_default (environ : gmap string string) (key default : string) : string :=
  match environ !! key with
  | Some v => v
  | None => default
  end.

(** *** [int(s)] on a string, base 10

    CPython converts a [str] in two steps.  The text is first brought to
    ASCII: a character below 127 stays as it is, a Unicode white-space
    character becomes a space, a Unicode decimal digit becomes the ASCII
    digit of its value, and at any other character the text is cut after a
    question mark.  The ASCII text is then read as: optional white space,
    an optional sign, decimal digits with single underscores allowed
    between digits, optional white space.  CPython (3.11 and later) also
    refuses a literal of more than [int_max_str_digits] digits.

    Text is kept as UTF-8 here, so the first step starts by decoding it.
    The value of an environment variable that is not valid UTF-8 reaches
    Python with lone surrogates in the place of the offending bytes, which
    are neither digits nor white space: [int] refuses it.  The tables of
    digits and white space are those of Unicode 14.0, the database of
    CPython 3.11. *)

Definition byte_code (c : ascii) : Z := Z.of_nat (nat_of_ascii c).

Definition is_continuation (c : ascii) : bool :=
  (0x80 <=? byte_code c) && (byte_code c <=? 0xBF).

Definition payload (c : ascii) : Z := byte_code c - 0x80.

(** The code points of a UTF-8 text; [None] when the text is not valid
    UTF-8 (a stray or missing continuation byte, an overlong form, an
    encoded surrogate, a value above U+10FFFF). *)
Fixpoint utf8_decode (s : string) : option (list Z) :=
  match s with
  | EmptyString => Some []
  | String b0 r0 =>
      let n0 := byte_code b0 in
      if n0 <? 0x80 then cons n0 <$> utf8_decode r0
      else if n0 <? 0xC0 then None
      else if n0 <? 0xE0 then
        match r0 with
        | String b1 r1 =>
            let cp := (n0 - 0xC0) * 64 + payload b1 in
            if is_continuation b1 && (0x80 <=? cp)
            then cons cp <$> utf8_decode r1
            else None
        | _ => None
        end
      else if n0 <? 0xF0 then
        match r0 with
        | String b1 (String b2 r2) =>
            let cp := ((n0 - 0xE0) * 64 + payload b1) * 64 + payload b2 in
            if is_continuation b1 && is_continuation b2 && (0x800 <=? cp)
               && negb ((0xD800 <=? cp) && (cp <=? 0xDFFF))
            then cons cp <$> utf8_decode r2
            else None
        | _ => None
        end
      else if n0 <? 0xF8 then
        match r0 with
        | String b1 (String b2 (String b3 r3)) =>
            let cp := (((n0 - 0xF0) * 64 + payload b1) * 64 + payload b2) * 64
                      + payload b3 in
            if is_continuation b1 && is_continuation b2 && is_continuation b3
               && (0x10000 <=? cp) && (cp <=? 0x10FFFF)
            then cons cp <$> utf8_decode r3
            else None
        | _ => None
        end
      else None
  end.

(** The white-space characters from 127 on ([str.isspace]). *)
Definition unicode_spaces : list Z :=
  [ 0x85; 0xA0; 0x1680; 0x2000; 0x2001; 0x2002; 0x2003; 0x2004;
    0x2005; 0x2006; 0x2007; 0x2008; 0x2009; 0x200A; 0x2028; 0x2029;
    0x202F; 0x205F; 0x3000 ].

(** The digit zero of every run of ten decimal digits (general category
    Nd); the nine code points that follow it are the digits one to nine. *)
Definition unicode_decimal_zeros : list Z :=
  [ 0x30; 0x660; 0x6F0; 0x7C0; 0x966; 0x9E6; 0xA66; 0xAE6;
    0xB66; 0xBE6; 0xC66; 0xCE6; 0xD66; 0xDE6; 0xE50; 0xED0;
    0xF20; 0x1040; 0x1090; 0x17E0; 0x1810; 0x1946; 0x19D0; 0x1A80;
    0x1A90; 0x1B50; 0x1BB0; 0x1C40; 0x1C50; 0xA620; 0xA8D0; 0xA900;
    0xA9D0; 0xA9F0; 0xAA50; 0xABF0; 0xFF10; 0x104A0; 0x10D30; 0x11066;
    0x110F0; 0x11136; 0x111D0; 0x112F0; 0x11450; 0x114D0; 0x11650; 0x116C0;
    0x11730; 0x118E0; 0x11950; 0x11C50; 0x11D50; 0x11DA0; 0x16A60; 0x16AC0;
    0x16B50; 0x1D7CE; 0x1D7D8; 0x1D7E2; 0x1D7EC; 0x1D7F6; 0x1E140; 0x1E2F0;
    0x1E950; 0x1FBF0 ].

Definition unicode_space (cp : Z) : bool := existsb (Z.eqb cp) unicode_spaces.

Fixpoint decimal_in (zeros : list Z) (cp : Z) : option Z :=
  match zeros with
  | [] => None
  | zero :: rest =>
      if (zero <=? cp) && (cp <? zero + 10) then Some (cp - zero)
      else decimal_in rest cp
  end.

Definition unicode_decimal (cp : Z) : option Z := decimal_in unicode_decimal_zeros cp.

Definition ascii_of_code (n : Z) : ascii := ascii_of_nat (Z.to_nat n).

(** The first step: white space and decimal digits brought to ASCII. *)
Fixpoint transform_decimal_and_space (cps : list Z) : string :=
  match cps with
  | [] => ""
  | cp :: rest =>
      if cp <? 127 then String (ascii_of_code cp) (transform_decimal_and_space rest)
      else if unicode_space cp then String " " (transform_decimal_and_space rest)
      else
        match unicode_decimal cp with
        | Some d => String (ascii_of_code (48 + d)) (transform_decimal_and_space rest)
        | None => "?"
        end
  end.

Definition is_space (c : ascii) : bool :=
  let n := Z.of_nat (nat_of_ascii c) in
  ((9 <=? n) && (n <=? 13)) || (n =? 32).

Definition digit_value (c : ascii) : option Z :=
  let n := Z.of_nat (nat_of_ascii c) in
  if (48 <=? n) && (n <=? 57) then Some (n - 48) else None.

Definition is_underscore (c : ascii) : bool :=
  Z.of_nat (nat_of_ascii c) =? 95.

Definition int_max_str_digits : Z := 4300.

Fixpoint skip_space (s : string) : string :=
  match s with
  | String c s' => if is_space c then skip_space s' else s
  | EmptyString => s
  end.

(** Scans digits and underscores; [prev_us] tells that the previous
    character was an underscore.  Returns the value read, the number of
    digits and the rest of the text, or [None] on a doubled or trailing
    underscore. *)
Fixpoint scan_digits (s : string) (prev_us : bool) (digits acc : Z)
  : option (Z * Z * string) :=
  match s with
  | String c s' =>
      if is_underscore c then
        if prev_us then None else scan_digits s' true digits acc
      else
        match digit_value c with
        | Some d => scan_digits s' false (digits + 1) (10 * acc + d)
        | None => if prev_us then None else Some (acc, digits, s)
        end
  | EmptyString => if prev_us then None else Some (acc, digits, s)
  end.

Definition split_sign (s : string) : Z * string :=
  match s with
  | String "+"%char r => (1, r)
  | String "-"%char r => (-1, r)
  | _ => (1, s)
  end.

(** The second step, on the ASCII text. *)
Definition PyLong_FromString (s : string) : option Z :=
  let '(sign, body) := split_sign (skip_space s) in
  match body with
  | String "_"%char _ => None
  | _ =>
      match scan_digits body false 0 0 with
      | None => None
      | Some (v, digits, rest) =>
          if digits =? 0 then None
          else if int_max_str_digits <? digits then None
          else match skip_space rest with
               | EmptyString => Some (sign * v)
               | String _ _ => None
               end
      end
  end.

Definition py_int (s : string) : option Z :=
  match utf8_decode s with
  | Some cps => PyLong_FromString (transform_decimal_and_space cps)
  | None => None
  end.

Definition int (s : string) : result Z :=
  match py_int s with
  | Some z => Ok z
  | None => Raise (ValueError_int s)
  end.

(** ** Module-level settings (lines 32-59) *)

Record Settings := {
  OPENAI_API_KEY : option string;
  OPENAI_MODEL : string;
  GEMINI_API_KEY : option string;
  GEMINI_MODEL : string;
  DEEPSEEK_API_KEY : option string;
  DEEPSEEK_MODEL : string;
  DEEPSEEK_BASE_URL : string;
  MAX_STEPS : Z;
  SCREENSHOT_TIMEOUT : Z;
  DEFAULT_VIEWPORT_WIDTH : Z;
  DEFAULT_VIEWPORT_HEIGHT : Z;
  GRID_SIZE : Z;
  GRID_COLOR : string;
  NAVIGATION_TIMEOUT : Z;
  PAGE_LOAD_WAIT : Z;
  LOG_LEVEL : string
}.

(** The assignments of lines 32-59, in program order.  Only the [int]
    conversions can raise; the first one that does ends the import. *)
Definition resolve_settings (environ : gmap string string) : result Settings :=
  let OPENAI_API_KEY := getenv environ "OPENAI_API_KEY" in
  let OPENAI_MODEL := getenv_default environ "OPENAI_MODEL" "gpt-5-mini" in
  let GEMINI_API_KEY := getenv environ "GEMINI_API_KEY" in
  let GEMINI_MODEL := getenv_default environ "GEMINI_MODEL" "gemini-1.5-pro" in
  let DEEPSEEK_API_KEY := getenv environ "DEEPSEEK_API_KEY" in
  let DEEPSEEK_MODEL := getenv_default environ "DEEPSEEK_MODEL" "deepseek-chat" in
  let DEEPSEEK_BASE_URL :=
    getenv_default environ "DEEPSEEK_BASE_URL" "https://api.deepseek.com" in
  MAX_STEPS <- int (getenv_default environ "MAX_STEPS" "15") ;;
  SCREENSHOT_TIMEOUT <- int (getenv_default environ "SCREENSHOT_TIMEOUT" "30000") ;;
  DEFAULT_VIEWPORT_WIDTH <- int (getenv_default environ "DEFAULT_VIEWPORT_WIDTH" "1920") ;;
  DEFAULT_VIEWPORT_HEIGHT <- int (getenv_default environ "DEFAULT_VIEWPORT_HEIGHT" "1080") ;;
  GRID_SIZE <- int (getenv_default environ "GRID_SIZE" "100") ;;
  let GRID_COLOR := getenv_default environ "GRID_COLOR" "rgba(255,0,0,0.3)" in
  NAVIGATION_TIMEOUT <- int (getenv_default environ "NAVIGATION_TIMEOUT" "30000") ;;
  PAGE_LOAD_WAIT <- int (getenv_default environ "PAGE_LOAD_WAIT" "2000") ;;
  let LOG_LEVEL := getenv_default environ "LOG_LEVEL" "INFO" in
  Ok {| OPENAI_API_KEY := OPENAI_API_KEY;
        OPENAI_MODEL := OPENAI_MODEL;
        GEMINI_API_KEY := GEMINI_API_KEY;
        GEMINI_MODEL := GEMINI_MODEL;
        DEEPSEEK_API_KEY := DEEPSEEK_API_KEY;
        DEEPSEEK_MODEL := DEEPSEEK_MODEL;
        DEEPSEEK_BASE_URL := DEEPSEEK_BASE_URL;
        MAX_STEPS := MAX_STEPS;
        SCREENSHOT_TIMEOUT := SCREENSHOT_TIMEOUT;
        DEFAULT_VIEWPORT_WIDTH := DEFAULT_VIEWPORT_WIDTH;
        DEFAULT_VIEWPORT_HEIGHT := DEFAULT_VIEWPORT_HEIGHT;
        GRID_SIZE := GRID_SIZE;
        GRID_COLOR := GRID_COLOR;
        NAVIGATION_TIMEOUT := NAVIGATION_TIMEOUT;
        PAGE_LOAD_WAIT := PAGE_LOAD_WAIT;
        LOG_LEVEL := LOG_LEVEL |}.

(** A Python value of one of the three types a setting can have. *)
Inductive value :=
| VNone
| VStr (s : string)
| VInt (z : Z).

(** [getattr(config, name)] for the names bound by lines 32-59. *)
Definition setting (cfg : Settings) (name : string) : option value :=
  if decide (name = "OPENAI_API_KEY") then
    Some (match OPENAI_API_KEY cfg with Some k => VStr k | None => VNone end)
  else if decide (name = "OPENAI_MODEL") then Some (VStr (OPENAI_MODEL cfg))
  else if decide (name = "GEMINI_API_KEY") then
    Some (match GEMINI_API_KEY cfg with Some k => VStr k | None => VNone end)
  else if decide (name = "GEMINI_MODEL") then Some (VStr (GEMINI_MODEL cfg))
  else if decide (name = "DEEPSEEK_API_KEY") then
    Some (match DEEPSEEK_API_KEY cfg with Some k => VStr k | None => VNone end)
  else if decide (name = "DEEPSEEK_MODEL") then Some (VStr (DEEPSEEK_MODEL cfg))
  else if decide (name = "DEEPSEEK_BASE_URL") then Some (VStr (DEEPSEEK_BASE_URL cfg))
  else if decide (name = "MAX_STEPS") then Some (VInt (MAX_STEPS cfg))
  else if decide (name = "SCREENSHOT_TIMEOUT") then Some (VInt (SCREENSHOT_TIMEOUT cfg))
  else if decide (name = "DEFAULT_VIEWPORT_WIDTH") then
    Some (VInt (DEFAULT_VIEWPORT_WIDTH cfg))
  else if decide (name = "DEFAULT_VIEWPORT_HEIGHT") then
    Some (VInt (DEFAULT_VIEWPORT_HEIGHT cfg))
  else if decide (name = "GRID_SIZE") then Some (VInt (GRID_SIZE cfg))
  else if decide (name = "GRID_COLOR") then Some (VStr (GRID_COLOR cfg))
  else if decide (name = "NAVIGATION_TIMEOUT") then Some (VInt (NAVIGATION_TIMEOUT cfg))
  else if decide (name = "PAGE_LOAD_WAIT") then Some (VInt (PAGE_LOAD_WAIT cfg))
  else if decide (name = "LOG_LEVEL") then Some (VStr (LOG_LEVEL cfg))
  else None.

(** The table of environment variables of the specification (External
    Interfaces): variable, documented default.  The type of a setting is
    the type of its default; the three credentials, whose default is
    (none), are strings when set. *)
Definition documented_defaults : list (string * value) :=
  [ ("OPENAI_API_KEY", VNone);
    ("OPENAI_MODEL", VStr "gpt-5-mini");
    ("GEMINI_API_KEY", VNone);
    ("GEMINI_MODEL", VStr "gemini-1.5-pro");
    ("DEEPSEEK_API_KEY", VNone);
    ("DEEPSEEK_MODEL", VStr "deepseek-chat");
    ("DEEPSEEK_BASE_URL", VStr "https://api.deepseek.com");
    ("MAX_STEPS", VInt 15);
    ("SCREENSHOT_TIMEOUT", VInt 30000);
    ("DEFAULT_VIEWPORT_WIDTH", VInt 1920);
    ("DEFAULT_VIEWPORT_HEIGHT", VInt 1080);
    ("GRID_SIZE", VInt 100);
    ("GRID_COLOR", VStr "rgba(255,0,0,0.3)");
    ("NAVIGATION_TIMEOUT", VInt 30000);
    ("PAGE_LOAD_WAIT", VInt 2000);
    ("LOG_LEVEL", VStr "INFO") ].

(** The value a setting of the documented type takes from the text [x] of
    its environment variable: the integer [x] denotes for a numeric
    setting ([None] when [x] is not a valid integer literal), [x] itself
    otherwise. *)
Definition coerce (default : value) (x : string) : option value :=
  match default with
  | VInt _ => VInt <$> py_int x
  | VStr _ | VNone => Some (VStr x)
  end.

Definition numeric_settings : list string :=
  [ "MAX_STEPS"; "SCREENSHOT_TIMEOUT"; "DEFAULT_VIEWPORT_WIDTH";
    "DEFAULT_VIEWPORT_HEIGHT"; "GRID_SIZE"; "NAVIGATION_TIMEOUT";
    "PAGE_LOAD_WAIT" ].

(** ** Standard output and the [IO] monad *)

Record console := {
  stdout : list string;   (* lines written by print *)
  stderr : list string
}.

(** A computation that may print and may raise.  What was printed before
    an exception is raised stays printed. *)
Definition IO (A : Type) : Type := console -> result A * console.

Definition io_ret {A} (a : A) : IO A := fun c => (Ok a, c).

Definition io_bind {A B} (m : IO A) (k : A -> IO B) : IO B :=
  fun c =>
    match m c with
    | (Ok a, c') => k a c'
    | (Raise e, c') => (Raise e, c')
    end.

Notation "m >> k" := (io_bind m (fun _ => k))
  (at level 100, right associativity).

Definition print (line : string) : IO unit :=
  fun c => (Ok tt, {| stdout := (stdout c ++ [line])%list; stderr := stderr c |}).

Definition raise {A} (e : exn) : IO A := fun c => (Raise e, c).

(** Truth value of a list: false exactly when empty. *)
Definition nonempty {A} (l : list A) : bool :=
  match l with
  | [] => false
  | _ :: _ => true
  end.

(** ** [validate_config] (lines 182-200)

    The function reads the module-level names OPENAI_API_KEY,
    GEMINI_API_KEY and DEEPSEEK_API_KEY, here fields of [cfg]; [errors] and
    [warnings] are its two local lists. *)

Definition validate_config (cfg : Settings) : IO unit :=
  let errors : list string := [] in
  let warnings : list string := [] in
  let errors :=
    if negb (truthy (OPENAI_API_KEY cfg))
    then (errors ++ ["OPENAI_API_KEY is not set (required for primary LLM)"])%list
    else errors in
  let warnings :=
    if negb (truthy (GEMINI_API_KEY cfg))
    then (warnings ++ ["GEMINI_API_KEY is not set (optional fallback)"])%list
    else warnings in
  let warnings :=
    if negb (truthy (DEEPSEEK_API_KEY cfg))
    then (warnings ++ ["DEEPSEEK_API_KEY is not set (optional auxiliary LLM)"])%list
    else warnings in
  (if nonempty warnings
   then print ("⚠ Warnings: " +:+ join ", " warnings)
   else io_ret tt) >>
  (if nonempty errors
   then raise (ValueError ("Configuration errors: " +:+ join ", " errors))
   else io_ret tt).

(** The script entry point (lines 202-204). *)
Definition main (cfg : Settings) : IO unit :=
  validate_config cfg >>
  print "✓ Configuration validated successfully".

Definition empty_console : console := {| stdout := []; stderr := [] |}.

(** ** Static reference data (lines 73-179) *)

Definition NIELSEN_HEURISTICS : list string :=
  [ "Visibility of system status";
    "Match between system and the real world";
    "User control and freedom";
    "Consistency and standards";
    "Error prevention";
    "Recognition rather than recall";
    "Flexibility and efficiency of use";
    "Aesthetic and minimalist design";
    "Help users recognize, diagnose, and recover from errors";
    "Help and documentation" ].

Record Persona := {
  name : string;
  name_en : string;
  age : Z;
  tech_level : string;
  characteristics : list string;
  goals : list string;
  pain_points : list string;
  devices : list string;
  time_pressure : string;
  system_prompt : string
}.

Definition persona_student : Persona := {|
  name := "Студент";
  name_en := "Student";
  age := 20;
  tech_level := "высокий";
  characteristics :=
    [ "Активный пользователь мобильных устройств";
      "Многозадачность и быстрое переключение между разделами";
      "Ограниченное время между парами";
      "Привычка к современным UI паттернам (свайпы, жесты)" ];
  goals :=
    [ "Быстро найти расписание занятий";
      "Скачать учебные материалы";
      "Сдать домашнее задание онлайн";
      "Проверить оценки и зачетку";
      "Найти контакты преподавателя" ];
  pain_points :=
    [ "Долгая загрузка на мобильном интернете";
      "Непонятная навигация в личном кабинете";
      "Мелкий текст на мобильных";
      "Отсутствие push-уведомлений" ];
  devices := [ "mobile"; "tablet"; "desktop" ];
  time_pressure := "высокое";
  system_prompt :=
    "Ты студент, 20 лет. Ты опытный пользователь интернета, активно используешь смартфон. У тебя мало времени между парами, поэтому тебе нужно быстро найти нужную информацию. Ты ожидаешь, что интерфейс будет интуитивным и современным, как в популярных приложениях."
|}.

Definition persona_applicant : Persona := {|
  name := "Абитуриент";
  name_en := "Applicant";
  age := 17;
  tech_level := "средний";
  characteristics :=
    [ "Первый раз на сайте университета";
      "Стресс от выбора будущей профессии";
      "Часто заходит вместе с родителями";
      "Сравнивает несколько университетов" ];
  goals :=
    [ "Узнать проходные баллы на программу";
      "Посмотреть список вступительных экзаменов";
      "Найти информацию о стоимости обучения";
      "Понять процесс подачи документов";
      "Найти дни открытых дверей" ];
  pain_points :=
    [ "Слишком много непонятных терминов";
      "Информация раскидана по разным разделам";
      "Нет четкой инструкции 'как поступить'";
      "Устаревшие данные (прошлогодние проходные баллы)" ];
  devices := [ "mobile"; "desktop" ];
  time_pressure := "среднее";
  system_prompt :=
    "Ты абитуриент, 17 лет, выбираешь учебное заведение. Ты впервые на этом сайте и немного волнуешься. Тебе нужна понятная информация о поступлении без сложных терминов. Ты будешь сравнивать эту информацию с другими вариантами."
|}.

Definition persona_teacher : Persona := {|
  name := "Преподаватель";
  name_en := "Teacher";
  age := 45;
  tech_level := "средний";
  characteristics :=
    [ "Использует компьютер в основном для работы";
      "Ценит стабильность и привычные паттерны";
      "Много административной работы";
      "Может работать с планшета в аудитории" ];
  goals :=
    [ "Загрузить оценки студентов";
      "Опубликовать учебные материалы";
      "Посмотреть список студентов в группе";
      "Забронировать аудиторию";
      "Согласовать расписание консультаций" ];
  pain_points :=
    [ "Слишком много кликов для простых действий";
      "Непонятная система загрузки файлов";
      "Нет возможности массовых операций";
      "Интерфейс не адаптирован под планшет" ];
  devices := [ "desktop"; "tablet" ];
  time_pressure := "низкое";
  system_prompt :=
    "Ты преподаватель, 45 лет. Ты используешь сайт регулярно для работы со студентами и публикации материалов. Ты ценишь эффективность и не любишь, когда интерфейс меняется без причины. Ты хочешь выполнять задачи быстро и без лишних кликов."
|}.

Definition PERSONAS : gmap string Persona :=
  {[ "student" := persona_student;
     "applicant" := persona_applicant;
     "teacher" := persona_teacher ]}.

Definition SENTIMENT_LABELS : gmap string Z :=
  {[ "POSITIVE" := 1; "NEUTRAL" := 0; "NEGATIVE" := -1 ]}.

(** ** The file system and [Path.mkdir] (lines 13-22) *)

(** A path is the list of its components, innermost first: the parent of
    a path is its tail and the root is the empty list. *)
Abbreviation Path := (list string).

Definition joinpath (p : Path) (child : string) : Path := child :: p.

Declare Scope path_scope.
Delimit Scope path_scope with path.
Notation "p / child" := (joinpath p child) : path_scope.

Definition parent (p : Path) : Path := tail p.

Inductive node :=
| File
| Dir (writable : bool).

(** [os.stat(p)]: every proper prefix of [p] has to be a directory. *)
Fixpoint stat (fs : gmap Path node) (p : Path) : result node :=
  let entry :=
    match fs !! p with
    | Some n => Ok n
    | None => Raise (OSError ENOENT)
    end in
  match p with
  | [] => entry
  | _ :: up =>
      match stat fs up with
      | Raise e => Raise e
      | Ok File => Raise (OSError ENOTDIR)
      | Ok (Dir _) => entry
      end
  end.

(** [Path.is_dir()]: false when the path does not resolve. *)
Definition is_dir (fs : gmap Path node) (p : Path) : bool :=
  match stat fs p with
  | Ok (Dir _) => true
  | _ => false
  end.

(** [os.mkdir(p)]: creates one directory inside an existing, writable
    directory. *)
Definition os_mkdir (p : Path) (fs : gmap Path node) : result (gmap Path node) :=
  match p with
  | [] =>
      match fs !! p with
      | Some _ => Raise (OSError EEXIST)
      | None => Raise (OSError ENOENT)
      end
  | _ :: up =>
      match stat fs up with
      | Raise e => Raise e
      | Ok File => Raise (OSError ENOTDIR)
      | Ok (Dir writable) =>
          match fs !! p with
          | Some _ => Raise (OSError EEXIST)
          | None =>
              if writable then Ok (<[p := Dir true]> fs)
              else Raise (OSError EACCES)
          end
      end
  end.

(** [Path.mkdir(parents=False, exist_ok=...)]: a [FileNotFoundError] is
    raised again; any other [OSError] is swallowed when [exist_ok] holds
    and the path is a directory. *)
Definition mkdir_here (exist_ok : bool) (p : Path) (fs : gmap Path node)
  : result (gmap Path node) :=
  match os_mkdir p fs with
  | Ok fs' => Ok fs'
  | Raise (OSError ENOENT) => Raise (OSError ENOENT)
  | Raise e => if exist_ok && is_dir fs p then Ok fs else Raise e
  end.

(** [Path.mkdir(parents=True, exist_ok=...)]: on [FileNotFoundError] the
    parent is made with [parents=True, exist_ok=True] and the directory
    itself is retried with [parents=False]. *)
Fixpoint mkdir_parents (exist_ok : bool) (p : Path) (fs : gmap Path node)
  : result (gmap Path node) :=
  match os_mkdir p fs with
  | Ok fs' => Ok fs'
  | Raise (OSError ENOENT) =>
      match p with
      | [] => Raise (OSError ENOENT)          (* self.parent == self *)
      | _ :: up =>
          fs1 <- mkdir_parents true up fs ;;
          mkdir_here exist_ok p fs1
      end
  | Raise e => if exist_ok && is_dir fs p then Ok fs else Raise e
  end.

Definition mkdir (p : Path) (parents exist_ok : bool) (fs : gmap Path node)
  : result (gmap Path node) :=
  if parents then mkdir_parents exist_ok p fs else mkdir_here exist_ok p fs.

Section Layout.
(** [Path(__file__).parent.parent] *)
Variable ROOT_DIR : Path.

Definition DATA_DIR : Path := (ROOT_DIR / "data")%path.
Definition SCREENSHOTS_DIR : Path := (DATA_DIR / "screenshots")%path.
Definition REPORTS_DIR : Path := (DATA_DIR / "reports")%path.
Definition LOGS_DIR : Path := (ROOT_DIR / "logs")%path.
Definition LOG_FILE : Path := (LOGS_DIR / "audit.log")%path.

(** Lines 20-22. *)
Definition establish_directories (fs : gmap Path node) : result (gmap Path node) :=
  fs <- mkdir SCREENSHOTS_DIR true true fs ;;
  fs <- mkdir REPORTS_DIR true true fs ;;
  mkdir LOGS_DIR true true fs.

(** The module body up to the settings, lines 13-59: directories first,
    then the settings.  An exception ends the import where it is raised. *)
Definition module_body (fs : gmap Path node) (environ : gmap string string)
  : result (gmap Path node * Settings) :=
  fs' <- establish_directories fs ;;
  cfg <- resolve_settings environ ;;
  Ok (fs', cfg).
End Layout.

(** ** Vocabulary of the statements *)

(** What [resolve_settings] yields in an empty environment. *)
Definition default_settings : Settings := {|
  OPENAI_API_KEY := None;
  OPENAI_MODEL := "gpt-5-mini";
  GEMINI_API_KEY := None;
  GEMINI_MODEL := "gemini-1.5-pro";
  DEEPSEEK_API_KEY := None;
  DEEPSEEK_MODEL := "deepseek-chat";
  DEEPSEEK_BASE_URL := "https://api.deepseek.com";
  MAX_STEPS := 15;
  SCREENSHOT_TIMEOUT := 30000;
  DEFAULT_VIEWPORT_WIDTH := 1920;
  DEFAULT_VIEWPORT_HEIGHT := 1080;
  GRID_SIZE := 100;
  GRID_COLOR := "rgba(255,0,0,0.3)";
  NAVIGATION_TIMEOUT := 30000;
  PAGE_LOAD_WAIT := 2000;
  LOG_LEVEL := "INFO"
|}.

(** [cfg] with its three credentials replaced. *)
Definition set_keys (openai gemini deepseek : option string) (cfg : Settings)
  : Settings := {|
  OPENAI_API_KEY := openai;
  OPENAI_MODEL := OPENAI_MODEL cfg;
  GEMINI_API_KEY := gemini;
  GEMINI_MODEL := GEMINI_MODEL cfg;
  DEEPSEEK_API_KEY := deepseek;
  DEEPSEEK_MODEL := DEEPSEEK_MODEL cfg;
  DEEPSEEK_BASE_URL := DEEPSEEK_BASE_URL cfg;
  MAX_STEPS := MAX_STEPS cfg;
  SCREENSHOT_TIMEOUT := SCREENSHOT_TIMEOUT cfg;
  DEFAULT_VIEWPORT_WIDTH := DEFAULT_VIEWPORT_WIDTH cfg;
  DEFAULT_VIEWPORT_HEIGHT := DEFAULT_VIEWPORT_HEIGHT cfg;
  GRID_SIZE := GRID_SIZE cfg;
  GRID_COLOR := GRID_COLOR cfg;
  NAVIGATION_TIMEOUT := NAVIGATION_TIMEOUT cfg;
  PAGE_LOAD_WAIT := PAGE_LOAD_WAIT cfg;
  LOG_LEVEL := LOG_LEVEL cfg
|}.

(** A credential that is set to the empty string, read as unset. *)
Definition unset_if_blank (key : option string) : option string :=
  match key with
  | Some "" => None
  | _ => key
  end.

(** The lines that a run which started on console [c] and ended on [c']
    wrote to standard output. *)
Definition printed (c c' : console) : list string :=
  drop (length (stdout c)) (stdout c').

(** The run printed a line that mentions [key]. *)
Definition warned (key : string) (c : console) (r : result unit * console) : bool :=
  existsb (mentions key) (printed c r.2).

(** The run raised the [ValueError] of [validate_config] with a message
    that mentions [key]. *)
Definition failed_on (key : string) (r : result unit * console) : bool :=
  match r.1 with
  | Raise (ValueError msg) => mentions key msg
  | _ => false
  end.

Definition openai_error : string :=
  "Configuration errors: OPENAI_API_KEY is not set (required for primary LLM)".

Definition both_warnings : string :=
  "⚠ Warnings: GEMINI_API_KEY is not set (optional fallback), DEEPSEEK_API_KEY is not set (optional auxiliary LLM)".

(** The first validation property read to the letter: on settings [cfg],
    [validate_config] raises a [ValueError] that mentions OPENAI_API_KEY
    exactly when the setting is absent, and returns when it is present. *)
Definition raises_iff_absent (cfg : Settings) (c : console) : Prop :=
  (failed_on "OPENAI_API_KEY" (validate_config cfg c) = true
     <-> OPENAI_API_KEY cfg = None)
  /\ (OPENAI_API_KEY cfg <> None -> (validate_config cfg c).1 = Ok tt).

(** The settings of a process whose environment holds OPENAI_API_KEY
    with an empty value and nothing else. *)
Definition blank_key_environ : gmap string string := {[ "OPENAI_API_KEY" := "" ]}.
Definition blank_key_settings : Settings := set_keys (Some "") None None default_settings.

(** The third validation property read to the letter: with
    OPENAI_API_KEY set, to whatever text, and the two optional credentials
    unset, [validate_config] returns after printing the warning that names
    both. *)
Definition returns_when_key_set (cfg : Settings) (c : console) : Prop :=
  is_Some (OPENAI_API_KEY cfg) ->
  GEMINI_API_KEY cfg = None ->
  DEEPSEEK_API_KEY cfg = None ->
  (validate_config cfg c).1 = Ok tt
  /\ warned "GEMINI_API_KEY" c (validate_config cfg c) = true
  /\ warned "DEEPSEEK_API_KEY" c (validate_config cfg c) = true.

(** The absence of range checks read to the letter: when every numeric
    variable that is set holds an integer literal, the settings block runs
    to its end, the numeric settings are the integers denoted, and
    [validate_config] returns provided OPENAI_API_KEY is set, to whatever
    text. *)
Definition unchecked_and_valid_when_key_set (environ : gmap string string) : Prop :=
  (forall name x, name ∈ numeric_settings -> environ !! name = Some x ->
                  is_Some (py_int x)) ->
  exists cfg,
    resolve_settings environ = Ok cfg
    /\ (forall name x z, name ∈ numeric_settings -> environ !! name = Some x ->
                         py_int x = Some z -> setting cfg name = Some (VInt z))
    /\ (is_Some (environ !! "OPENAI_API_KEY") ->
        forall c, (validate_config cfg c).1 = Ok tt).

(** An environment with an empty key and a negative step limit. *)
Definition blank_key_negative_steps : gmap string string :=
  {[ "OPENAI_API_KEY" := ""; "MAX_STEPS" := "-5" ]}.

(** An environment with a key, two numeric settings out of any sensible
    range and a model name; and one with a malformed numeric setting. *)
Definition sample_environ : gmap string string :=
  {[ "OPENAI_API_KEY" := "sk-test";
     "OPENAI_MODEL" := "gpt-5.2";
     "MAX_STEPS" := "-5";
     "SCREENSHOT_TIMEOUT" := "0" ]}.

Definition sample_settings : Settings := {|
  OPENAI_API_KEY := Some "sk-test";
  OPENAI_MODEL := "gpt-5.2";
  GEMINI_API_KEY := None;
  GEMINI_MODEL := "gemini-1.5-pro";
  DEEPSEEK_API_KEY := None;
  DEEPSEEK_MODEL := "deepseek-chat";
  DEEPSEEK_BASE_URL := "https://api.deepseek.com";
  MAX_STEPS := -5;
  SCREENSHOT_TIMEOUT := 0;
  DEFAULT_VIEWPORT_WIDTH := 1920;
  DEFAULT_VIEWPORT_HEIGHT := 1080;
  GRID_SIZE := 100;
  GRID_COLOR := "rgba(255,0,0,0.3)";
  NAVIGATION_TIMEOUT := 30000;
  PAGE_LOAD_WAIT := 2000;
  LOG_LEVEL := "INFO"
|}.

Definition malformed_environ : gmap string string := {[ "MAX_STEPS" := "abc" ]}.

(** What a successful [mkdir] leaves behind: the directory is there and
    every directory that was there still is. *)
Definition made (p : Path) (fs fs' : gmap Path node) : Prop :=
  is_dir fs' p = true /\ forall q, is_dir fs q = true -> is_dir fs' q = true.

(** A file system that holds the root and an empty application
    directory, and its state once the module has been imported. *)
Definition app_root : Path := ["app"].

Definition bare_fs : gmap Path node := {[ [] := Dir true; app_root := Dir true ]}.

Definition established_fs : gmap Path node :=
  <[LOGS_DIR app_root := Dir true]>
    (<[REPORTS_DIR app_root := Dir true]>
       (<[SCREENSHOTS_DIR app_root := Dir true]>
          (<[DATA_DIR app_root := Dir true]> bare_fs))).

(** ** Vocabulary of the further properties *)

Definition success_line : string := "✓ Configuration validated successfully".

Definition gemini_warning : string :=
  "⚠ Warnings: GEMINI_API_KEY is not set (optional fallback)".

Definition deepseek_warning : string :=
  "⚠ Warnings: DEEPSEEK_API_KEY is not set (optional auxiliary LLM)".

(** The lines [validate_config] prints on settings [cfg]. *)
Definition warning_lines (cfg : Settings) : list string :=
  match truthy (GEMINI_API_KEY cfg), truthy (DEEPSEEK_API_KEY cfg) with
  | true, true => []
  | false, true => [gemini_warning]
  | true, false => [deepseek_warning]
  | false, false => [both_warnings]
  end.

(** The numeric variables with the default texts of lines 45-56, in
    program order. *)
Definition numeric_defaults : list (string * string) :=
  [ ("MAX_STEPS", "15");
    ("SCREENSHOT_TIMEOUT", "30000");
    ("DEFAULT_VIEWPORT_WIDTH", "1920");
    ("DEFAULT_VIEWPORT_HEIGHT", "1080");
    ("GRID_SIZE", "100");
    ("NAVIGATION_TIMEOUT", "30000");
    ("PAGE_LOAD_WAIT", "2000") ].

(** The first text, in the order of [vars], that [int] refuses. *)
Fixpoint first_malformed (environ : gmap string string)
    (vars : list (string * string)) : option string :=
  match vars with
  | [] => None
  | (key, default) :: rest =>
      let text := getenv_default environ key default in
      match py_int text with
      | None => Some text
      | Some _ => first_malformed environ rest
      end
  end.

(** [fs'] is [fs] with nothing removed or changed, and with nothing added
    but writable directories on the way to one of [targets]. *)
Definition only_adds_dirs (targets : list Path) (fs fs' : gmap Path node) : Prop :=
  (forall q n, fs !! q = Some n -> fs' !! q = Some n)
  /\ (forall q n, fs' !! q = Some n ->
        fs !! q = Some n
        \/ (n = Dir true /\ exists p, p ∈ targets /\ q `suffix_of` p)).

(** The application directory with a regular file named [logs], with a
    regular file named [data], with only [data] in place, and a read-only
    application directory. *)
Definition logs_is_file_fs : gmap Path node :=
  <[LOGS_DIR app_root := File]> bare_fs.

Definition data_is_file_fs : gmap Path node :=
  <[DATA_DIR app_root := File]> bare_fs.

Definition data_only_fs : gmap Path node :=
  <[DATA_DIR app_root := Dir true]> bare_fs.

Definition logs_is_file_established_fs : gmap Path node :=
  <[LOGS_DIR app_root := File]> established_fs.

Definition read_only_fs : gmap Path node :=
  {[ [] := Dir true; app_root := Dir false ]}.

(** [sample_environ] with a variable the module does not read. *)
Definition sample_environ_with_path : gmap string string :=
  <["PATH" := "/usr/bin"]> sample_environ.

(** [load_dotenv()] (line 10), python-dotenv with its default
    [override=False]: every variable of the override file that the process
    environment does not hold already is added to it; a variable that the
    environment holds, be it with an empty value, is left alone.  The file
    is given by the variables it assigns, [dotenv]; it is empty when there
    is no file. *)
Definition load_dotenv (dotenv environ : gmap string string) : gmap string string :=
  environ ∪ dotenv.

(** An override file with a key and a step limit, and a process
    environment that holds an empty key. *)
Definition sample_dotenv : gmap string string :=
  {[ "OPENAI_API_KEY" := "sk-from-file"; "MAX_STEPS" := "7" ]}.

(** ** The module run as a script

    Everything the interpreter executes for [python config.py], in program
    order: the override file is loaded (line 10), the directories are
    established (lines 20-22), the settings are resolved (lines 32-59),
    logging is set up (lines 62-70), and the entry point runs (lines
    202-204).  The other statements bind literals and define
    [validate_config]; they cannot fail.

    [logging.basicConfig] with its [FileHandler] belongs to the standard
    library and is a parameter here: given the text of LOG_LEVEL, the path
    of the log file and the file system, it either completes, leaving a
    file system, or raises. *)

Inductive script_outcome :=
| Returned
| Raised (e : exn)
| RaisedByLogging.

Definition script
    (basicConfig : string -> Path -> gmap Path node -> option (gmap Path node))
    (dotenv : gmap string string) (root : Path) (fs : gmap Path node)
    (environ : gmap string string) (c : console) : script_outcome * console :=
  match module_body root fs (load_dotenv dotenv environ) with
  | Raise e => (Raised e, c)
  | Ok (fs1, cfg) =>
      match basicConfig (LOG_LEVEL cfg) (LOG_FILE root) fs1 with
      | None => (RaisedByLogging, c)
      | Some _ =>
          match main cfg c with
          | (Ok _, c') => (Returned, c')
          | (Raise e, c') => (Raised e, c')
          end
      end
  end.

(** A logging set-up that completes and creates the log file, and one
    that refuses the level name [debug]. *)
Definition logging_completes (level : string) (log_file : Path)
    (fs : gmap Path node) : option (gmap Path node) :=
  Some (<[log_file := File]> fs).

Definition logging_refuses_debug (level : string) (log_file : Path)
    (fs : gmap Path node) : option (gmap Path node) :=
  if String.eqb level "debug" then None else Some (<[log_file := File]> fs).

(** * Properties *)

(** ** [int] on sample literals *)

Example py_int_15 : py_int "15" = Some 15. Proof. reflexivity. Qed.
Example py_int_neg : py_int " -5 " = Some (-5). Proof. reflexivity. Qed.
Example py_int_us : py_int "30_000" = Some 30000. Proof. reflexivity. Qed.
Example py_int_abc : py_int "abc" = None. Proof. reflexivity. Qed.
Example py_int_empty : py_int "" = None. Proof. reflexivity. Qed.
Example py_int_float : py_int "1.5" = None. Proof. reflexivity. Qed.
Example py_int_us2 : py_int "1__0" = None. Proof. reflexivity. Qed.
Example py_int_us3 : py_int "10_" = None. Proof. reflexivity. Qed.
Example py_int_sign : py_int "- 1" = None. Proof. reflexivity. Qed.
Example py_int_zeros : py_int "0010" = Some 10. Proof. reflexivity. Qed.
Example py_int_arabic_indic : py_int "١٥" = Some 15. Proof. reflexivity. Qed.
Example py_int_no_break_space :
  py_int (String (ascii_of_code 0xC2) (String (ascii_of_code 0xA0) "15")) = Some 15.
Proof. reflexivity. Qed.
Example py_int_ideographic_space :
  py_int ("15" +:+ String (ascii_of_code 0xE3) (String (ascii_of_code 0x80)
                     (String (ascii_of_code 0x80) ""))) = Some 15.
Proof. reflexivity. Qed.
Example py_int_fullwidth : py_int "１２" = Some 12. Proof. reflexivity. Qed.
Example py_int_mixed : py_int "+١_2" = Some 12. Proof. reflexivity. Qed.
Example py_int_mathematical : py_int "𝟎𝟙" = Some 1. Proof. reflexivity. Qed.
Example py_int_superscript : py_int "1²" = None. Proof. reflexivity. Qed.
Example py_int_vulgar_fraction : py_int "½" = None. Proof. reflexivity. Qed.
Example py_int_separator : py_int (String (ascii_of_code 0x1C) "15") = None.
Proof. reflexivity. Qed.
Example py_int_delete : py_int (String (ascii_of_code 127) "15") = None.
Proof. reflexivity. Qed.
Example py_int_stray_byte : py_int (String (ascii_of_code 0xB1) "15") = None.
Proof. reflexivity. Qed.
Example py_int_overlong : py_int (String (ascii_of_code 0xC0) (String (ascii_of_code 0xB1) "")) = None.
Proof. reflexivity. Qed.


(** ** [validate_config] *)

Lemma resolve_settings_empty : resolve_settings ∅ = Ok default_settings.
Proof. reflexivity. Qed.

Lemma resolve_settings_blank_key :
  resolve_settings blank_key_environ = Ok blank_key_settings.
Proof. vm_compute. reflexivity. Qed.

Lemma truthy_unset_if_blank key : truthy (unset_if_blank key) = truthy key.
Proof. by destruct key as [[|? ?]|]. Qed.

Lemma truthy_false_inv key : truthy key = false -> key = None \/ key = Some "".
Proof. destruct key as [[|? ?]|]; cbn; intros; auto; discriminate. Qed.

(** [validate_config] looks at its settings only through the truth values
    of the three credentials. *)
Lemma validate_config_truthy cfg cfg' c :
  truthy (OPENAI_API_KEY cfg) = truthy (OPENAI_API_KEY cfg') ->
  truthy (GEMINI_API_KEY cfg) = truthy (GEMINI_API_KEY cfg') ->
  truthy (DEEPSEEK_API_KEY cfg) = truthy (DEEPSEEK_API_KEY cfg') ->
  validate_config cfg c = validate_config cfg' c.
Proof.
  unfold validate_config. intros -> -> ->. reflexivity.
Qed.

(** Every settings record is [set_keys] of its own credentials, so a
    statement about [set_keys o g d cfg] for all [o], [g], [d] and [cfg]
    speaks about all settings. *)
Lemma set_keys_own cfg :
  set_keys (OPENAI_API_KEY cfg) (GEMINI_API_KEY cfg) (DEEPSEEK_API_KEY cfg) cfg = cfg.
Proof. by destruct cfg. Qed.

(** The whole behaviour of [validate_config] in one equation: the outcome
    depends on OPENAI_API_KEY alone, what is printed on the two optional
    credentials alone. *)
Lemma validate_config_run cfg c :
  validate_config cfg c =
    (if truthy (OPENAI_API_KEY cfg) then Ok tt else Raise (ValueError openai_error),
     {| stdout :=
          (stdout c ++
             match truthy (GEMINI_API_KEY cfg), truthy (DEEPSEEK_API_KEY cfg) with
             | true, true => []
             | false, true =>
                 ["⚠ Warnings: GEMINI_API_KEY is not set (optional fallback)"]
             | true, false =>
                 ["⚠ Warnings: DEEPSEEK_API_KEY is not set (optional auxiliary LLM)"]
             | false, false => [both_warnings]
             end)%list;
        stderr := stderr c |}).
Proof.
  unfold validate_config, io_bind, print, io_ret, raise.
  destruct c as [out err].
  destruct (truthy (OPENAI_API_KEY cfg)), (truthy (GEMINI_API_KEY cfg)),
    (truthy (DEEPSEEK_API_KEY cfg)); cbn; rewrite ?app_nil_r; reflexivity.
Qed.

Lemma printed_app c out err l :
  out = (stdout c ++ l)%list -> printed c {| stdout := out; stderr := err |} = l.
Proof.
  intros ->. unfold printed; cbn. by rewrite drop_app_length.
Qed.

Lemma validate_config_stderr cfg c : stderr (validate_config cfg c).2 = stderr c.
Proof. by rewrite validate_config_run. Qed.

Lemma validate_config_outcome cfg c :
  (validate_config cfg c).1 =
    if truthy (OPENAI_API_KEY cfg) then Ok tt else Raise (ValueError openai_error).
Proof. by rewrite validate_config_run. Qed.

Lemma failed_on_openai cfg c :
  failed_on "OPENAI_API_KEY" (validate_config cfg c) = negb (truthy (OPENAI_API_KEY cfg)).
Proof.
  unfold failed_on. rewrite validate_config_outcome.
  by destruct (truthy (OPENAI_API_KEY cfg)).
Qed.

Lemma warned_gemini cfg c :
  warned "GEMINI_API_KEY" c (validate_config cfg c) = negb (truthy (GEMINI_API_KEY cfg)).
Proof.
  unfold warned. rewrite validate_config_run; cbn [snd].
  erewrite printed_app by reflexivity.
  by destruct (truthy (GEMINI_API_KEY cfg)), (truthy (DEEPSEEK_API_KEY cfg)).
Qed.

Lemma warned_deepseek cfg c :
  warned "DEEPSEEK_API_KEY" c (validate_config cfg c) = negb (truthy (DEEPSEEK_API_KEY cfg)).
Proof.
  unfold warned. rewrite validate_config_run; cbn [snd].
  erewrite printed_app by reflexivity.
  by destruct (truthy (GEMINI_API_KEY cfg)), (truthy (DEEPSEEK_API_KEY cfg)).
Qed.

(** Claim C1, as the specification words it, fails: with OPENAI_API_KEY
    set to the empty string the setting is present ([Some ""]), and
    [validate_config] raises all the same. *)
Lemma raises_iff_absent_fails_on_blank_key :
  resolve_settings blank_key_environ = Ok blank_key_settings
  /\ ~ raises_iff_absent blank_key_settings empty_console.
Proof.
  split; [apply resolve_settings_blank_key |].
  intros [_ Hpresent].
  assert (Hne : OPENAI_API_KEY blank_key_settings <> None) by discriminate.
  specialize (Hpresent Hne). rewrite validate_config_outcome in Hpresent.
  discriminate Hpresent.
Qed.

(** Claim C1, amended: [validate_config] raises the [ValueError] whose
    message mentions OPENAI_API_KEY if and only if the OPENAI_API_KEY
    setting is absent or the empty string; it raises nothing else; and it
    returns (with no value) if and only if OPENAI_API_KEY is set to a
    non-empty string, whatever the two optional credentials are. *)
Theorem validate_raises_iff_absent_or_blank (cfg : Settings) (c : console) :
  (failed_on "OPENAI_API_KEY" (validate_config cfg c) = true
     <-> OPENAI_API_KEY cfg = None \/ OPENAI_API_KEY cfg = Some "")
  /\ ((exists e, (validate_config cfg c).1 = Raise e)
     <-> (validate_config cfg c).1 = Raise (ValueError openai_error))
  /\ ((validate_config cfg c).1 = Ok tt
     <-> exists k, OPENAI_API_KEY cfg = Some k /\ k <> "").
Proof.
  rewrite failed_on_openai, validate_config_outcome.
  destruct (OPENAI_API_KEY cfg) as [[|a k]|]; cbn; split_and!; split;
    try (intros [? | ?]); try (intros (? & ? & ?)); try (intros [? ?]);
    intros; try discriminate; try congruence; eauto.
Qed.

(** Claim C2: one run of [validate_config] reports every credential that
    is unset or empty, whatever the others are: the error mentions
    OPENAI_API_KEY exactly when that key is, and the printed warning
    mentions each optional key exactly when that key is.  With all three
    unset, the same run prints the warning naming both optional keys and
    raises the error naming OPENAI_API_KEY. *)
Theorem validate_reports_every_key (cfg : Settings) (c : console) :
  (failed_on "OPENAI_API_KEY" (validate_config cfg c)
     = negb (truthy (OPENAI_API_KEY cfg))
   /\ warned "GEMINI_API_KEY" c (validate_config cfg c)
     = negb (truthy (GEMINI_API_KEY cfg))
   /\ warned "DEEPSEEK_API_KEY" c (validate_config cfg c)
     = negb (truthy (DEEPSEEK_API_KEY cfg)))
  /\ validate_config (set_keys None None None cfg) c
     = (Raise (ValueError openai_error),
        {| stdout := (stdout c ++ [both_warnings])%list; stderr := stderr c |})
  /\ mentions "OPENAI_API_KEY" openai_error = true
  /\ mentions "GEMINI_API_KEY" both_warnings = true
  /\ mentions "DEEPSEEK_API_KEY" both_warnings = true.
Proof.
  split; [| split; [| by vm_compute]].
  - auto using failed_on_openai, warned_gemini, warned_deepseek.
  - by rewrite validate_config_run.
Qed.

(** Claim C3, as the specification words it, fails: with OPENAI_API_KEY
    set to the empty string and nothing else set, [validate_config]
    raises. *)
Lemma returns_when_key_set_fails_on_blank_key :
  resolve_settings blank_key_environ = Ok blank_key_settings
  /\ ~ returns_when_key_set blank_key_settings empty_console.
Proof.
  split; [apply resolve_settings_blank_key |].
  intros H. destruct H as (Hraise & _); [by eexists | reflexivity ..|].
  rewrite validate_config_outcome in Hraise. discriminate Hraise.
Qed.

(** Claim C3, amended: a missing optional credential is never fatal.  The
    outcome of [validate_config] is the same whatever the optional
    credentials are; with OPENAI_API_KEY set to a non-empty value it
    returns for every state of the optional credentials; and when both are
    unset it returns after printing, on standard output and leaving
    standard error alone, the one warning line that names both. *)
Theorem missing_optional_keys_not_fatal
    (cfg : Settings) (c : console) (k : string) :
  k <> "" ->
  (forall o g d,
      (validate_config (set_keys o g d cfg) c).1
      = (validate_config (set_keys o None None cfg) c).1)
  /\ (forall g d, (validate_config (set_keys (Some k) g d cfg) c).1 = Ok tt)
  /\ validate_config (set_keys (Some k) None None cfg) c
     = (Ok tt,
        {| stdout := (stdout c ++ [both_warnings])%list; stderr := stderr c |})
  /\ warned "GEMINI_API_KEY" c (validate_config (set_keys (Some k) None None cfg) c) = true
  /\ warned "DEEPSEEK_API_KEY" c (validate_config (set_keys (Some k) None None cfg) c) = true.
Proof.
  intros Hk.
  assert (Ht : truthy (Some k) = true) by (by destruct k).
  split_and!.
  - intros o g d. by rewrite !validate_config_outcome.
  - intros g d. rewrite validate_config_outcome; cbn [OPENAI_API_KEY set_keys].
    by rewrite Ht.
  - rewrite validate_config_run; cbn [OPENAI_API_KEY GEMINI_API_KEY DEEPSEEK_API_KEY set_keys].
    by rewrite Ht.
  - by rewrite warned_gemini.
  - by rewrite warned_deepseek.
Qed.

Lemma missing_optional_keys_not_fatal_witness :
  "sk-test" <> ""
  /\ validate_config (set_keys (Some "sk-test") None None default_settings) empty_console
     = (Ok tt, {| stdout := [both_warnings]; stderr := [] |}).
Proof.
  split; [discriminate |].
  apply (missing_optional_keys_not_fatal default_settings empty_console "sk-test").
  discriminate.
Defined.

(** Claim C9: an empty-string credential counts as an absent one.
    Replacing any empty credential by an unset one changes neither the
    outcome nor the output of [validate_config]; in particular an empty
    OPENAI_API_KEY raises the error of an unset one, and an empty
    GEMINI_API_KEY or DEEPSEEK_API_KEY draws its warning. *)
Theorem blank_key_counts_as_unset
    (cfg : Settings) (c : console) (o g d : option string) :
  validate_config (set_keys o g d cfg) c
    = validate_config
        (set_keys (unset_if_blank o) (unset_if_blank g) (unset_if_blank d) cfg) c
  /\ (validate_config (set_keys (Some "") g d cfg) c).1
     = Raise (ValueError openai_error)
  /\ (validate_config (set_keys (Some "") g d cfg) c).1
     = (validate_config (set_keys None g d cfg) c).1
  /\ warned "GEMINI_API_KEY" c (validate_config (set_keys o (Some "") d cfg) c) = true
  /\ warned "DEEPSEEK_API_KEY" c (validate_config (set_keys o g (Some "") cfg) c) = true.
Proof.
  split_and!.
  - apply validate_config_truthy; cbn [OPENAI_API_KEY GEMINI_API_KEY DEEPSEEK_API_KEY set_keys];
      by rewrite truthy_unset_if_blank.
  - by rewrite validate_config_outcome.
  - by rewrite !validate_config_outcome.
  - by rewrite warned_gemini.
  - by rewrite warned_deepseek.
Qed.

(** ** The settings *)

Lemma int_Ok s z : int s = Ok z <-> py_int s = Some z.
Proof. unfold int. destruct (py_int s); split; congruence. Qed.

Lemma int_Raise s e : int s = Raise e <-> py_int s = None /\ e = ValueError_int s.
Proof.
  unfold int. destruct (py_int s); split.
  - discriminate.
  - intros [? _]; discriminate.
  - intros [= <-]. by split.
  - by intros [_ ->].
Qed.

Lemma getenv_default_unset environ key default :
  environ !! key = None -> getenv_default environ key default = default.
Proof. unfold getenv_default. by intros ->. Qed.

Lemma getenv_default_set environ key default x :
  environ !! key = Some x -> getenv_default environ key default = x.
Proof. unfold getenv_default. by intros ->. Qed.

(** What a successful run of the settings block has bound. *)
Lemma resolve_settings_Ok environ cfg :
  resolve_settings environ = Ok cfg <->
  OPENAI_API_KEY cfg = environ !! "OPENAI_API_KEY"
  /\ OPENAI_MODEL cfg = getenv_default environ "OPENAI_MODEL" "gpt-5-mini"
  /\ GEMINI_API_KEY cfg = environ !! "GEMINI_API_KEY"
  /\ GEMINI_MODEL cfg = getenv_default environ "GEMINI_MODEL" "gemini-1.5-pro"
  /\ DEEPSEEK_API_KEY cfg = environ !! "DEEPSEEK_API_KEY"
  /\ DEEPSEEK_MODEL cfg = getenv_default environ "DEEPSEEK_MODEL" "deepseek-chat"
  /\ DEEPSEEK_BASE_URL cfg
     = getenv_default environ "DEEPSEEK_BASE_URL" "https://api.deepseek.com"
  /\ py_int (getenv_default environ "MAX_STEPS" "15") = Some (MAX_STEPS cfg)
  /\ py_int (getenv_default environ "SCREENSHOT_TIMEOUT" "30000")
     = Some (SCREENSHOT_TIMEOUT cfg)
  /\ py_int (getenv_default environ "DEFAULT_VIEWPORT_WIDTH" "1920")
     = Some (DEFAULT_VIEWPORT_WIDTH cfg)
  /\ py_int (getenv_default environ "DEFAULT_VIEWPORT_HEIGHT" "1080")
     = Some (DEFAULT_VIEWPORT_HEIGHT cfg)
  /\ py_int (getenv_default environ "GRID_SIZE" "100") = Some (GRID_SIZE cfg)
  /\ GRID_COLOR cfg = getenv_default environ "GRID_COLOR" "rgba(255,0,0,0.3)"
  /\ py_int (getenv_default environ "NAVIGATION_TIMEOUT" "30000")
     = Some (NAVIGATION_TIMEOUT cfg)
  /\ py_int (getenv_default environ "PAGE_LOAD_WAIT" "2000") = Some (PAGE_LOAD_WAIT cfg)
  /\ LOG_LEVEL cfg = getenv_default environ "LOG_LEVEL" "INFO".
Proof.
  unfold resolve_settings, getenv, int. split.
  - repeat match goal with
           | |- context [py_int ?s] => destruct (py_int s); cbn [rbind]; [| discriminate]
           end.
    intros [= <-]. cbn. split_and!; reflexivity.
  - destruct cfg; cbn.
    intros (-> & -> & -> & -> & -> & -> & -> & -> & -> & -> & -> & -> & -> & -> & -> & ->).
    reflexivity.
Qed.

(** [setting] reads the field of the same name. *)
Lemma setting_OPENAI_API_KEY cfg :
  setting cfg "OPENAI_API_KEY" = Some (match OPENAI_API_KEY cfg with Some k => VStr k | None => VNone end).
Proof. reflexivity. Qed.

Lemma setting_OPENAI_MODEL cfg :
  setting cfg "OPENAI_MODEL" = Some (VStr (OPENAI_MODEL cfg)).
Proof. reflexivity. Qed.

Lemma setting_GEMINI_API_KEY cfg :
  setting cfg "GEMINI_API_KEY" = Some (match GEMINI_API_KEY cfg with Some k => VStr k | None => VNone end).
Proof. reflexivity. Qed.

Lemma setting_GEMINI_MODEL cfg :
  setting cfg "GEMINI_MODEL" = Some (VStr (GEMINI_MODEL cfg)).
Proof. reflexivity. Qed.

Lemma setting_DEEPSEEK_API_KEY cfg :
  setting cfg "DEEPSEEK_API_KEY" = Some (match DEEPSEEK_API_KEY cfg with Some k => VStr k | None => VNone end).
Proof. reflexivity. Qed.

Lemma setting_DEEPSEEK_MODEL cfg :
  setting cfg "DEEPSEEK_MODEL" = Some (VStr (DEEPSEEK_MODEL cfg)).
Proof. reflexivity. Qed.

Lemma setting_DEEPSEEK_BASE_URL cfg :
  setting cfg "DEEPSEEK_BASE_URL" = Some (VStr (DEEPSEEK_BASE_URL cfg)).
Proof. reflexivity. Qed.

Lemma setting_MAX_STEPS cfg :
  setting cfg "MAX_STEPS" = Some (VInt (MAX_STEPS cfg)).
Proof. reflexivity. Qed.

Lemma setting_SCREENSHOT_TIMEOUT cfg :
  setting cfg "SCREENSHOT_TIMEOUT" = Some (VInt (SCREENSHOT_TIMEOUT cfg)).
Proof. reflexivity. Qed.

Lemma setting_DEFAULT_VIEWPORT_WIDTH cfg :
  setting cfg "DEFAULT_VIEWPORT_WIDTH" = Some (VInt (DEFAULT_VIEWPORT_WIDTH cfg)).
Proof. reflexivity. Qed.

Lemma setting_DEFAULT_VIEWPORT_HEIGHT cfg :
  setting cfg "DEFAULT_VIEWPORT_HEIGHT" = Some (VInt (DEFAULT_VIEWPORT_HEIGHT cfg)).
Proof. reflexivity. Qed.

Lemma setting_GRID_SIZE cfg :
  setting cfg "GRID_SIZE" = Some (VInt (GRID_SIZE cfg)).
Proof. reflexivity. Qed.

Lemma setting_GRID_COLOR cfg :
  setting cfg "GRID_COLOR" = Some (VStr (GRID_COLOR cfg)).
Proof. reflexivity. Qed.

Lemma setting_NAVIGATION_TIMEOUT cfg :
  setting cfg "NAVIGATION_TIMEOUT" = Some (VInt (NAVIGATION_TIMEOUT cfg)).
Proof. reflexivity. Qed.

Lemma setting_PAGE_LOAD_WAIT cfg :
  setting cfg "PAGE_LOAD_WAIT" = Some (VInt (PAGE_LOAD_WAIT cfg)).
Proof. reflexivity. Qed.

Lemma setting_LOG_LEVEL cfg :
  setting cfg "LOG_LEVEL" = Some (VStr (LOG_LEVEL cfg)).
Proof. reflexivity. Qed.

Create Rewrite HintDb settings.
#[local] Hint Rewrite
  setting_OPENAI_API_KEY
  setting_OPENAI_MODEL
  setting_GEMINI_API_KEY
  setting_GEMINI_MODEL
  setting_DEEPSEEK_API_KEY
  setting_DEEPSEEK_MODEL
  setting_DEEPSEEK_BASE_URL
  setting_MAX_STEPS
  setting_SCREENSHOT_TIMEOUT
  setting_DEFAULT_VIEWPORT_WIDTH
  setting_DEFAULT_VIEWPORT_HEIGHT
  setting_GRID_SIZE
  setting_GRID_COLOR
  setting_NAVIGATION_TIMEOUT
  setting_PAGE_LOAD_WAIT
  setting_LOG_LEVEL : settings.

(** Environment value first, documented default otherwise, for every row
    of the documented table. *)
Lemma resolve_settings_precedence
    (environ : gmap string string) (cfg : Settings) (name : string) (d : value) :
  resolve_settings environ = Ok cfg ->
  (name, d) ∈ documented_defaults ->
  (environ !! name = None -> setting cfg name = Some d)
  /\ (forall x v, environ !! name = Some x -> coerce d x = Some v ->
                setting cfg name = Some v).
Proof.
  intros Hcfg Hin. apply resolve_settings_Ok in Hcfg.
  destruct Hcfg as (Ho & Hom & Hg & Hgm & Hd & Hdm & Hdu & Hms & Hst & Hvw & Hvh
                    & Hgs & Hgc & Hnt & Hpl & Hll).
  unfold documented_defaults in Hin.
  repeat (apply elem_of_cons in Hin as [[= -> ->] | Hin];
    [ autorewrite with settings;
      rewrite ?Ho, ?Hom, ?Hg, ?Hgm, ?Hd, ?Hdm, ?Hdu, ?Hgc, ?Hll; split;
      [ intros Hunset;
        rewrite ?Hunset, ?(getenv_default_unset _ _ _ Hunset) in *;
        repeat match goal with
               | H : py_int (String ?a ?s) = Some _ |- _ =>
                   let r := eval vm_compute in (py_int (String a s)) in
                   change (py_int (String a s)) with r in H
               end;
        congruence
      | intros x v Hset Hv;
        rewrite ?Hset, ?(getenv_default_set _ _ _ _ Hset) in *;
        cbn [coerce] in Hv;
        repeat match goal with
               | H : py_int x = Some _ |- _ => rewrite H in Hv
               end;
        cbn in Hv; congruence ]
    |]).
  by apply elem_of_nil in Hin.
Qed.

Lemma numeric_settings_documented name :
  name ∈ numeric_settings -> exists z, (name, VInt z) ∈ documented_defaults.
Proof.
  unfold numeric_settings, documented_defaults. intros H.
  repeat (apply elem_of_cons in H as [-> | H];
          [eexists; repeat (first [apply list_elem_of_here | apply list_elem_of_further]) |]).
  by apply elem_of_nil in H.
Qed.

Lemma sample_environ_resolves : resolve_settings sample_environ = Ok sample_settings.
Proof. vm_compute. reflexivity. Qed.

(** An environment whose numeric variables, where set, hold integer
    literals gets through the settings block. *)
Lemma resolve_settings_succeeds (environ : gmap string string) :
  (forall name x, name ∈ numeric_settings -> environ !! name = Some x ->
                  is_Some (py_int x)) ->
  exists cfg, resolve_settings environ = Ok cfg.
Proof.
  intros Hvalid.
  assert (Hint : forall key default,
             key ∈ numeric_settings -> is_Some (py_int default) ->
             is_Some (py_int (getenv_default environ key default))).
  { intros key default Hin Hdefault. unfold getenv_default.
    destruct (environ !! key) as [x |] eqn:Hx; eauto. }
  unfold resolve_settings, int.
  repeat match goal with
         | |- context [py_int (getenv_default environ ?k ?d)] =>
             let z := fresh "z" in
             let E := fresh "E" in
             assert (is_Some (py_int (getenv_default environ k d))) as [z E]
               by (apply Hint;
                   [ unfold numeric_settings;
                     repeat (first [apply list_elem_of_here
                                   | apply list_elem_of_further])
                   | by eexists ]);
             rewrite E; cbn [rbind]
         end.
  by eexists.
Qed.

(** Claim C4: precedence is "environment value, else documented default".
    In every environment whose numeric variables, where set, hold integer
    literals, and so in the empty one, the settings block runs to its end;
    and whenever it does, every variable of the documented table that is
    unset resolves to its documented default, of the documented type, and
    every variable that is set to a valid value resolves to that value:
    the text itself for a string setting, the integer it denotes for a
    numeric one. *)
Theorem settings_follow_precedence (environ : gmap string string) :
  ((forall name x, name ∈ numeric_settings -> environ !! name = Some x ->
                   is_Some (py_int x)) ->
   exists cfg,
     resolve_settings environ = Ok cfg
     /\ forall name d,
          (name, d) ∈ documented_defaults ->
          (environ !! name = None -> setting cfg name = Some d)
          /\ (forall x v, environ !! name = Some x -> coerce d x = Some v ->
                          setting cfg name = Some v))
  /\ (forall cfg name d,
        resolve_settings environ = Ok cfg ->
        (name, d) ∈ documented_defaults ->
        (environ !! name = None -> setting cfg name = Some d)
        /\ (forall x v, environ !! name = Some x -> coerce d x = Some v ->
                        setting cfg name = Some v)).
Proof.
  split.
  - intros [cfg Hcfg]%resolve_settings_succeeds. exists cfg.
    split; [assumption |]. intros name d. by apply resolve_settings_precedence.
  - intros cfg name d. apply resolve_settings_precedence.
Qed.

Lemma settings_follow_precedence_witness :
  (exists cfg,
      resolve_settings ∅ = Ok cfg
      /\ setting cfg "MAX_STEPS" = Some (VInt 15)
      /\ setting cfg "OPENAI_MODEL" = Some (VStr "gpt-5-mini")
      /\ setting cfg "OPENAI_API_KEY" = Some VNone)
  /\ (exists cfg,
        resolve_settings sample_environ = Ok cfg
        /\ setting cfg "MAX_STEPS" = Some (VInt (-5))
        /\ setting cfg "OPENAI_MODEL" = Some (VStr "gpt-5.2")
        /\ setting cfg "GRID_SIZE" = Some (VInt 100)).
Proof.
  assert (Hsteps : ("MAX_STEPS", VInt 15) ∈ documented_defaults)
    by (unfold documented_defaults;
        repeat (first [apply list_elem_of_here | apply list_elem_of_further])).
  assert (Hmodel : ("OPENAI_MODEL", VStr "gpt-5-mini") ∈ documented_defaults)
    by (unfold documented_defaults;
        repeat (first [apply list_elem_of_here | apply list_elem_of_further])).
  assert (Hkey : ("OPENAI_API_KEY", VNone) ∈ documented_defaults)
    by apply list_elem_of_here.
  assert (Hgrid : ("GRID_SIZE", VInt 100) ∈ documented_defaults)
    by (unfold documented_defaults;
        repeat (first [apply list_elem_of_here | apply list_elem_of_further])).
  split.
  - destruct (settings_follow_precedence ∅) as [Hruns _].
    destruct Hruns as (cfg & Hcfg & Hprec).
    { intros name x _ Hx. rewrite lookup_empty in Hx. discriminate Hx. }
    exists cfg. split; [exact Hcfg |]. split_and!.
    + by apply (Hprec _ _ Hsteps).
    + by apply (Hprec _ _ Hmodel).
    + by apply (Hprec _ _ Hkey).
  - destruct (settings_follow_precedence sample_environ) as [Hruns _].
    destruct Hruns as (cfg & Hcfg & Hprec).
    { unfold numeric_settings. intros name x Hname.
      repeat (apply elem_of_cons in Hname as [-> | Hname];
              [ let Hl := fresh in
                intros Hl; vm_compute in Hl;
                first [discriminate Hl | injection Hl as <-];
                by eexists |]).
      by apply elem_of_nil in Hname. }
    exists cfg. split; [exact Hcfg |]. split_and!.
    + apply (Hprec _ _ Hsteps) with (x := "-5"); by vm_compute.
    + apply (Hprec _ _ Hmodel) with (x := "gpt-5.2"); by vm_compute.
    + apply (Hprec _ _ Hgrid). by vm_compute.
Defined.

(** One [int] conversion of the settings block: either it raises, which
    ends the block, or it yields a value and the block goes on. *)
Ltac step_int environ key default :=
  let E := fresh "E" in
  destruct (py_int (getenv_default environ key default)) eqn:E; cbn [rbind].

(** Claim C5: a numeric setting whose variable holds text that is not an
    integer literal stops the import.  The settings block raises the
    [ValueError] of [int], on the first such text in program order (on the
    text of MAX_STEPS when that one is malformed); it never falls back to
    the default.  The import, once the directories are in place, ends with
    that exception. *)
Theorem malformed_numeric_setting_fails
    (environ : gmap string string) (name x : string) :
  name ∈ numeric_settings ->
  environ !! name = Some x ->
  py_int x = None ->
  exists bad,
    resolve_settings environ = Raise (ValueError_int bad)
    /\ py_int bad = None
    /\ is_ValueError (ValueError_int bad) = true
    /\ (name = "MAX_STEPS" -> bad = x)
    /\ (forall root fs fs',
          establish_directories root fs = Ok fs' ->
          module_body root fs environ = Raise (ValueError_int bad)).
Proof.
  intros Hin Hset Hbad.
  assert (Hx : forall default, py_int (getenv_default environ name default) = None)
    by (intros; by rewrite (getenv_default_set _ _ _ _ Hset)).
  assert (Hfirst : forall default z,
             py_int (getenv_default environ name default) = Some z -> False)
    by (intros ? ? Hz; rewrite Hx in Hz; discriminate).
  unfold module_body, resolve_settings, int.
  step_int environ "MAX_STEPS" "15";
  [ step_int environ "SCREENSHOT_TIMEOUT" "30000";
    [ step_int environ "DEFAULT_VIEWPORT_WIDTH" "1920";
      [ step_int environ "DEFAULT_VIEWPORT_HEIGHT" "1080";
        [ step_int environ "GRID_SIZE" "100";
          [ step_int environ "NAVIGATION_TIMEOUT" "30000";
            [ step_int environ "PAGE_LOAD_WAIT" "2000" | ] | ] | ] | ] | ] | ].
  1: { exfalso. unfold numeric_settings in Hin.
       repeat (apply elem_of_cons in Hin as [-> | Hin]; [by eauto |]).
       by apply elem_of_nil in Hin. }
  all: eexists; split_and!; [reflexivity | assumption | reflexivity | |].
  all: try (intros -> ; first [ exfalso; by eauto
                              | by rewrite (getenv_default_set _ _ _ _ Hset) ]).
  all: intros root fs fs' ->; reflexivity.
Qed.

Lemma malformed_numeric_setting_fails_witness :
  "MAX_STEPS" ∈ numeric_settings
  /\ malformed_environ !! "MAX_STEPS" = Some "abc"
  /\ py_int "abc" = None
  /\ resolve_settings malformed_environ = Raise (ValueError_int "abc").
Proof.
  assert (Hin : "MAX_STEPS" ∈ numeric_settings) by apply list_elem_of_here.
  assert (Hset : malformed_environ !! "MAX_STEPS" = Some "abc") by reflexivity.
  assert (Hbad : py_int "abc" = None) by reflexivity.
  split_and!; try assumption.
  destruct (malformed_numeric_setting_fails malformed_environ "MAX_STEPS" "abc"
              Hin Hset Hbad) as (bad & Hraise & _ & _ & Hmax & _).
  rewrite Hraise. by rewrite (Hmax eq_refl).
Defined.

(** Digits of another script are digits to [int]: MAX_STEPS set to
    ARABIC-INDIC DIGIT ONE, ARABIC-INDIC DIGIT FIVE loads as 15. *)
Example arabic_indic_steps_load :
  exists cfg, resolve_settings {[ "MAX_STEPS" := "١٥" ]} = Ok cfg
              /\ MAX_STEPS cfg = 15.
Proof. eexists. split; by vm_compute. Qed.

(** A numeric variable that is unset, or set to an integer literal, gets
    through its [int] conversion. *)
Lemma int_conversion_succeeds environ key default :
  is_Some (py_int default) ->
  (forall x, environ !! key = Some x -> is_Some (py_int x)) ->
  is_Some (py_int (getenv_default environ key default)).
Proof.
  intros Hdefault Hset. unfold getenv_default.
  destruct (environ !! key) as [x |]; auto.
Qed.

(** Claim C10, as written, fails in its last part: with MAX_STEPS=-5
    and OPENAI_API_KEY set to the empty string the settings block runs to
    its end, and [validate_config] raises although OPENAI_API_KEY is set. *)
Lemma unchecked_and_valid_when_key_set_fails_on_blank_key :
  ~ unchecked_and_valid_when_key_set blank_key_negative_steps.
Proof.
  intros H. destruct H as (cfg & Hcfg & _ & Hvalid).
  - unfold numeric_settings. intros name x Hin.
    repeat (apply elem_of_cons in Hin as [-> | Hin];
            [ let Hl := fresh in
              intros Hl; vm_compute in Hl; first [discriminate Hl | injection Hl as <-];
              by eexists |]).
    by apply elem_of_nil in Hin.
  - assert (Hkey : OPENAI_API_KEY cfg = Some "")
      by (by apply resolve_settings_Ok in Hcfg as (-> & _)).
    specialize (Hvalid ltac:(by eexists) empty_console).
    rewrite validate_config_outcome, Hkey in Hvalid. discriminate Hvalid.
Qed.

(** Claim C10, amended: no numeric setting is range-checked.  If every
    numeric variable that is set holds an integer literal, of any sign and
    size, the settings block runs to its end (and with it the import, once
    the directories are in place), each numeric setting that is set is the
    integer its text denotes, and [validate_config] returns on these
    settings provided OPENAI_API_KEY is set to a non-empty value. *)
Theorem numeric_settings_not_range_checked (environ : gmap string string) :
  (forall name x, name ∈ numeric_settings -> environ !! name = Some x ->
                  is_Some (py_int x)) ->
  exists cfg,
    resolve_settings environ = Ok cfg
    /\ (forall name x z, name ∈ numeric_settings -> environ !! name = Some x ->
                         py_int x = Some z -> setting cfg name = Some (VInt z))
    /\ (forall root fs fs',
          establish_directories root fs = Ok fs' ->
          module_body root fs environ = Ok (fs', cfg))
    /\ (truthy (environ !! "OPENAI_API_KEY") = true ->
        forall c, (validate_config cfg c).1 = Ok tt).
Proof.
  intros Hvalid.
  assert (Hint : forall key default,
             key ∈ numeric_settings -> is_Some (py_int default) ->
             is_Some (py_int (getenv_default environ key default)))
    by (intros; apply int_conversion_succeeds; eauto).
  assert (exists cfg, resolve_settings environ = Ok cfg) as [cfg Hcfg].
  { unfold resolve_settings, int.
    repeat match goal with
           | |- context [py_int (getenv_default environ ?k ?d)] =>
               let z := fresh "z" in
               let E := fresh "E" in
               assert (is_Some (py_int (getenv_default environ k d))) as [z E]
                 by (apply Hint;
                     [ unfold numeric_settings;
                       repeat (first [apply list_elem_of_here
                                     | apply list_elem_of_further])
                     | by eexists ]);
               rewrite E; cbn [rbind]
           end.
    by eexists. }
  exists cfg. split_and!; [assumption | | |].
  - intros name x z Hin Hset Hz.
    destruct (numeric_settings_documented name Hin) as [d Hd].
    apply (resolve_settings_precedence environ cfg name (VInt d) Hcfg Hd) with (x := x);
      [assumption |]. cbn. by rewrite Hz.
  - intros root fs fs' Hdirs. unfold module_body. by rewrite Hdirs, Hcfg.
  - intros Hkey c. rewrite validate_config_outcome.
    apply resolve_settings_Ok in Hcfg as (-> & _). by rewrite Hkey.
Qed.

Lemma numeric_settings_not_range_checked_witness :
  resolve_settings sample_environ = Ok sample_settings
  /\ setting sample_settings "MAX_STEPS" = Some (VInt (-5))
  /\ setting sample_settings "SCREENSHOT_TIMEOUT" = Some (VInt 0)
  /\ (validate_config sample_settings empty_console).1 = Ok tt.
Proof.
  assert (Hvalid : forall name x, name ∈ numeric_settings ->
                     sample_environ !! name = Some x -> is_Some (py_int x)).
  { unfold numeric_settings. intros name x Hin.
    repeat (apply elem_of_cons in Hin as [-> | Hin];
            [ let Hl := fresh in
              intros Hl; vm_compute in Hl; first [discriminate Hl | injection Hl as <-];
              by eexists |]).
    by apply elem_of_nil in Hin. }
  destruct (numeric_settings_not_range_checked sample_environ Hvalid)
    as (cfg & Hcfg & Hnum & _ & Hval).
  rewrite sample_environ_resolves in Hcfg. injection Hcfg as <-.
  split_and!; [reflexivity | | |].
  - apply (Hnum "MAX_STEPS" "-5"); [apply list_elem_of_here | |]; reflexivity.
  - apply (Hnum "SCREENSHOT_TIMEOUT" "0");
      [apply list_elem_of_further, list_elem_of_here | |]; reflexivity.
  - apply Hval. reflexivity.
Defined.

(** ** Static reference data *)

(** Claim C6: the heuristics sequence has exactly ten entries, in the
    order of Nielsen's list, from "Visibility of system status" at index 0
    to "Help and documentation" at index 9, all distinct.  It is a constant
    of the module, which no statement of the module assigns or mutates:
    every read yields this sequence. *)
Theorem heuristics_ten_in_order :
  length NIELSEN_HEURISTICS = 10%nat
  /\ NIELSEN_HEURISTICS !! 0%nat = Some "Visibility of system status"
  /\ NIELSEN_HEURISTICS !! 1%nat = Some "Match between system and the real world"
  /\ NIELSEN_HEURISTICS !! 2%nat = Some "User control and freedom"
  /\ NIELSEN_HEURISTICS !! 3%nat = Some "Consistency and standards"
  /\ NIELSEN_HEURISTICS !! 4%nat = Some "Error prevention"
  /\ NIELSEN_HEURISTICS !! 5%nat = Some "Recognition rather than recall"
  /\ NIELSEN_HEURISTICS !! 6%nat = Some "Flexibility and efficiency of use"
  /\ NIELSEN_HEURISTICS !! 7%nat = Some "Aesthetic and minimalist design"
  /\ NIELSEN_HEURISTICS !! 8%nat
     = Some "Help users recognize, diagnose, and recover from errors"
  /\ NIELSEN_HEURISTICS !! 9%nat = Some "Help and documentation"
  /\ last NIELSEN_HEURISTICS = Some "Help and documentation"
  /\ NoDup NIELSEN_HEURISTICS.
Proof.
  split_and!; try reflexivity.
  apply (bool_decide_unpack _). by vm_compute.
Qed.

(** Claim C7: the persona mapping has exactly the keys [student],
    [applicant] and [teacher], and every persona in it has non-empty
    [goals], [pain_points], [characteristics] and [devices]. *)
Theorem personas_keys_and_fields :
  dom PERSONAS = ({[ "student"; "applicant"; "teacher" ]} : gset string)
  /\ (forall key persona,
        PERSONAS !! key = Some persona ->
        goals persona <> [] /\ pain_points persona <> []
        /\ characteristics persona <> [] /\ devices persona <> []).
Proof.
  split.
  - unfold PERSONAS. rewrite !dom_insert_L, dom_singleton_L. set_solver.
  - intros key persona H. unfold PERSONAS in H.
    apply lookup_insert_Some in H as [[_ <-] | [_ H]]; [by split_and! |].
    apply lookup_insert_Some in H as [[_ <-] | [_ H]]; [by split_and! |].
    apply lookup_singleton_Some in H as [_ <-]. by split_and!.
Qed.

Lemma personas_keys_and_fields_witness :
  PERSONAS !! "teacher" = Some persona_teacher
  /\ devices persona_teacher <> [].
Proof.
  assert (H : PERSONAS !! "teacher" = Some persona_teacher) by (by vm_compute).
  split; [exact H |].
  destruct personas_keys_and_fields as [_ Hfields].
  apply (Hfields "teacher" persona_teacher H).
Defined.

(** ** Directory establishment *)

Lemma stat_cons fs a up :
  stat fs (a :: up) =
    match stat fs up with
    | Raise e => Raise e
    | Ok File => Raise (OSError ENOTDIR)
    | Ok (Dir _) =>
        match fs !! (a :: up) with
        | Some n => Ok n
        | None => Raise (OSError ENOENT)
        end
    end.
Proof. reflexivity. Qed.

(** A path that resolves has an entry, and its parent is a directory. *)
Lemma stat_Ok_lookup fs p n : stat fs p = Ok n -> fs !! p = Some n.
Proof.
  destruct p as [| a up]; cbn.
  - destruct (fs !! []); congruence.
  - destruct (stat fs up) as [[| w] |]; try discriminate.
    destruct (fs !! (a :: up)); congruence.
Qed.

Lemma stat_Ok_parent fs a up n :
  stat fs (a :: up) = Ok n -> exists w, stat fs up = Ok (Dir w).
Proof.
  rewrite stat_cons. destruct (stat fs up) as [[| w] |]; try discriminate. eauto.
Qed.

Lemma is_dir_stat fs p : is_dir fs p = true <-> exists w, stat fs p = Ok (Dir w).
Proof.
  unfold is_dir. destruct (stat fs p) as [[| w] |]; split;
    try discriminate; eauto; intros [? ?]; discriminate.
Qed.

Lemma is_dir_parent fs a up : is_dir fs (a :: up) = true -> is_dir fs up = true.
Proof.
  rewrite !is_dir_stat. intros [w H]. eapply stat_Ok_parent, H.
Qed.

(** Adding an entry where there was none leaves every path that resolved
    as it was. *)
Lemma stat_insert_fresh fs q d p n :
  fs !! q = None -> stat fs p = Ok n -> stat (<[q := d]> fs) p = Ok n.
Proof.
  intros Hq. revert n. induction p as [| a up IH]; intros n Hp.
  - apply stat_Ok_lookup in Hp as Hl. cbn.
    rewrite lookup_insert_ne by congruence. by rewrite Hl.
  - apply stat_Ok_lookup in Hp as Hl.
    destruct (stat_Ok_parent _ _ _ _ Hp) as [w Hup].
    rewrite stat_cons, (IH _ Hup).
    rewrite lookup_insert_ne by congruence. by rewrite Hl.
Qed.

(** Success of [os.mkdir]: the path was free, its parent a writable
    directory, and the one change is the new, writable directory. *)
Lemma os_mkdir_Ok p fs fs' :
  os_mkdir p fs = Ok fs' <->
  fs !! p = None /\ fs' = <[p := Dir true]> fs
  /\ exists a up, p = a :: up /\ stat fs up = Ok (Dir true).
Proof.
  unfold os_mkdir. destruct p as [| a up].
  - split.
    + destruct (fs !! []); discriminate.
    + intros (_ & _ & ? & ? & ? & _); discriminate.
  - split.
    + destruct (stat fs up) as [[| [|]] |] eqn:Hup; try discriminate;
        destruct (fs !! (a :: up)) eqn:Hfree; try discriminate.
      intros [= <-]. split_and!; eauto.
    + intros (-> & -> & a' & up' & [= <- <-] & ->). reflexivity.
Qed.

Lemma os_mkdir_is_dir p fs fs' : os_mkdir p fs = Ok fs' -> is_dir fs' p = true.
Proof.
  intros (Hfree & -> & a & up & -> & Hup)%os_mkdir_Ok.
  apply is_dir_stat. exists true.
  rewrite stat_cons, (stat_insert_fresh _ _ _ _ _ Hfree Hup).
  by rewrite lookup_insert_eq.
Qed.

Lemma os_mkdir_keeps p fs fs' q :
  os_mkdir p fs = Ok fs' -> is_dir fs q = true -> is_dir fs' q = true.
Proof.
  intros (Hfree & -> & _)%os_mkdir_Ok. rewrite !is_dir_stat.
  intros [w Hq]. exists w. by apply stat_insert_fresh.
Qed.

(** [os.mkdir] on a directory that is there: [FileExistsError]. *)
Lemma os_mkdir_existing p fs :
  is_dir fs p = true -> os_mkdir p fs = Raise (OSError EEXIST).
Proof.
  rewrite is_dir_stat. intros [w Hp]. apply stat_Ok_lookup in Hp as Hl.
  unfold os_mkdir. destruct p as [| a up].
  - by rewrite Hl.
  - destruct (stat_Ok_parent _ _ _ _ Hp) as [w' ->]. by rewrite Hl.
Qed.

Lemma made_trans p q fs fs1 fs2 : made p fs fs1 -> made q fs1 fs2 -> made q fs fs2.
Proof. intros [_ H1] [Hq H2]. split; auto. Qed.

Lemma mkdir_here_made p fs fs' : mkdir_here true p fs = Ok fs' -> made p fs fs'.
Proof.
  unfold mkdir_here. destruct (os_mkdir p fs) as [fs1 | e] eqn:Hos.
  - intros [= <-]. split; eauto using os_mkdir_is_dir, os_mkdir_keeps.
  - destruct e as [| | []]; cbn [andb]; try discriminate;
      destruct (is_dir fs p) eqn:Hd; try discriminate;
      intros [= <-]; by split.
Qed.

Lemma mkdir_parents_made p fs fs' : mkdir_parents true p fs = Ok fs' -> made p fs fs'.
Proof.
  revert fs fs'. induction p as [| a up IH]; intros fs fs'; cbn [mkdir_parents];
    destruct (os_mkdir _ fs) as [fs1 | e] eqn:Hos.
  1, 3: intros [= <-]; split; eauto using os_mkdir_is_dir, os_mkdir_keeps.
  - destruct e as [| | []]; cbn [andb]; try discriminate;
      destruct (is_dir fs []) eqn:Hd; try discriminate;
      intros [= <-]; by split.
  - destruct e as [| | []]; cbn [andb];
      try (destruct (is_dir fs (a :: up)) eqn:Hd; try discriminate;
           intros [= <-]; by split).
    destruct (mkdir_parents true up fs) as [fs1 |] eqn:Hup; cbn [rbind];
      [| discriminate].
    intros Hhere. eapply made_trans; eauto using mkdir_here_made.
Qed.

(** On a directory that is there, [mkdir(parents=True, exist_ok=True)]
    changes nothing. *)
Lemma mkdir_parents_existing p fs :
  is_dir fs p = true -> mkdir_parents true p fs = Ok fs.
Proof.
  intros Hd. destruct p; cbn [mkdir_parents];
    rewrite (os_mkdir_existing _ _ Hd), Hd; reflexivity.
Qed.

(** A successful establishment leaves the three directories in place. *)
Lemma establish_directories_made root fs fs' :
  establish_directories root fs = Ok fs' ->
  is_dir fs' (SCREENSHOTS_DIR root) = true
  /\ is_dir fs' (REPORTS_DIR root) = true
  /\ is_dir fs' (LOGS_DIR root) = true.
Proof.
  unfold establish_directories, mkdir.
  destruct (mkdir_parents true (SCREENSHOTS_DIR root) fs) as [fs1 |] eqn:H1;
    cbn [rbind]; [| discriminate].
  destruct (mkdir_parents true (REPORTS_DIR root) fs1) as [fs2 |] eqn:H2;
    cbn [rbind]; [| discriminate].
  intros H3.
  apply mkdir_parents_made in H1 as [S1 _], H2 as [R2 K2], H3 as [L3 K3].
  auto.
Qed.

Lemma establish_directories_existing root fs :
  is_dir fs (SCREENSHOTS_DIR root) = true ->
  is_dir fs (REPORTS_DIR root) = true ->
  is_dir fs (LOGS_DIR root) = true ->
  establish_directories root fs = Ok fs.
Proof.
  intros HS HR HL. unfold establish_directories, mkdir.
  rewrite (mkdir_parents_existing _ _ HS); cbn [rbind].
  rewrite (mkdir_parents_existing _ _ HR); cbn [rbind].
  apply (mkdir_parents_existing _ _ HL).
Qed.

Lemma os_mkdir_fresh a up fs :
  stat fs up = Ok (Dir true) -> fs !! (a :: up) = None ->
  os_mkdir (a :: up) fs = Ok (<[a :: up := Dir true]> fs).
Proof. intros Hup Hfree. apply os_mkdir_Ok. eauto 6. Qed.

Lemma stat_fresh_dir a up fs :
  stat fs up = Ok (Dir true) -> fs !! (a :: up) = None ->
  stat (<[a :: up := Dir true]> fs) (a :: up) = Ok (Dir true).
Proof.
  intros Hup Hfree.
  rewrite stat_cons, (stat_insert_fresh _ _ _ _ _ Hfree Hup).
  by rewrite lookup_insert_eq.
Qed.

(** In an application directory that has neither [data] nor [logs], the
    establishment creates [data] on the way to [data/screenshots]. *)
Lemma establish_directories_fresh root fs :
  stat fs root = Ok (Dir true) ->
  fs !! DATA_DIR root = None ->
  fs !! SCREENSHOTS_DIR root = None ->
  fs !! REPORTS_DIR root = None ->
  fs !! LOGS_DIR root = None ->
  establish_directories root fs =
    Ok (<[LOGS_DIR root := Dir true]>
          (<[REPORTS_DIR root := Dir true]>
             (<[SCREENSHOTS_DIR root := Dir true]>
                (<[DATA_DIR root := Dir true]> fs)))).
Proof.
  unfold establish_directories, mkdir, SCREENSHOTS_DIR, REPORTS_DIR, LOGS_DIR,
    DATA_DIR, joinpath.
  intros Hroot Hdata Hshots Hreports Hlogs.
  set (fs1 := <["data" :: root := Dir true]> fs).
  set (fs2 := <["screenshots" :: "data" :: root := Dir true]> fs1).
  set (fs3 := <["reports" :: "data" :: root := Dir true]> fs2).
  assert (Hdata1 : stat fs1 ("data" :: root) = Ok (Dir true))
    by by apply stat_fresh_dir.
  assert (Hshots1 : fs1 !! ("screenshots" :: "data" :: root) = None)
    by (subst fs1; by rewrite lookup_insert_ne).
  assert (Hdata2 : stat fs2 ("data" :: root) = Ok (Dir true))
    by by apply stat_insert_fresh.
  assert (Hreports2 : fs2 !! ("reports" :: "data" :: root) = None)
    by (subst fs2 fs1; by rewrite !lookup_insert_ne).
  assert (Hroot3 : stat fs3 root = Ok (Dir true)).
  { subst fs3 fs2 fs1.
    apply stat_insert_fresh; [assumption |].
    apply stat_insert_fresh; [assumption |].
    by apply stat_insert_fresh. }
  assert (Hlogs3 : fs3 !! ("logs" :: root) = None)
    by (subst fs3 fs2 fs1; by rewrite !lookup_insert_ne).
  (* data/screenshots: the parent is missing, so it is made first *)
  assert (Hfirst : mkdir_parents true ("screenshots" :: "data" :: root) fs = Ok fs2).
  { assert (Hmissing : os_mkdir ("screenshots" :: "data" :: root) fs
                       = Raise (OSError ENOENT))
      by (unfold os_mkdir; by rewrite stat_cons, Hroot, Hdata).
    cbn [mkdir_parents]. rewrite Hmissing.
    rewrite (os_mkdir_fresh _ _ _ Hroot Hdata); cbn [rbind].
    unfold mkdir_here. fold fs1.
    by rewrite (os_mkdir_fresh _ _ _ Hdata1 Hshots1). }
  rewrite Hfirst; cbn [rbind mkdir_parents].
  rewrite (os_mkdir_fresh _ _ _ Hdata2 Hreports2); cbn [rbind].
  fold fs3. by rewrite (os_mkdir_fresh _ _ _ Hroot3 Hlogs3).
Qed.

(** Claim C8: directory establishment is idempotent.  When a run of the
    three [mkdir] calls succeeds, a second run on the state it left also
    succeeds, changes nothing, and the three directories are present; on
    a state where the three directories already exist a run is a no-op;
    and where the application directory holds none of them a run creates
    them together with the intermediate [data] directory. *)
Theorem establish_directories_idempotent (root : Path) (fs : gmap Path node) :
  (forall fs1,
      establish_directories root fs = Ok fs1 ->
      establish_directories root fs1 = Ok fs1
      /\ is_dir fs1 (SCREENSHOTS_DIR root) = true
      /\ is_dir fs1 (REPORTS_DIR root) = true
      /\ is_dir fs1 (LOGS_DIR root) = true)
  /\ (is_dir fs (SCREENSHOTS_DIR root) = true ->
      is_dir fs (REPORTS_DIR root) = true ->
      is_dir fs (LOGS_DIR root) = true ->
      establish_directories root fs = Ok fs)
  /\ (stat fs root = Ok (Dir true) ->
      fs !! DATA_DIR root = None ->
      fs !! SCREENSHOTS_DIR root = None ->
      fs !! REPORTS_DIR root = None ->
      fs !! LOGS_DIR root = None ->
      exists fs1,
        establish_directories root fs = Ok fs1
        /\ fs1 = <[LOGS_DIR root := Dir true]>
                  (<[REPORTS_DIR root := Dir true]>
                     (<[SCREENSHOTS_DIR root := Dir true]>
                        (<[DATA_DIR root := Dir true]> fs)))
        /\ is_dir fs1 (DATA_DIR root) = true
        /\ establish_directories root fs1 = Ok fs1).
Proof.
  assert (Hidem : forall fs0 fs1,
             establish_directories root fs0 = Ok fs1 ->
             establish_directories root fs1 = Ok fs1).
  { intros fs0 fs1 (HS & HR & HL)%establish_directories_made.
    by apply establish_directories_existing. }
  split_and!.
  - intros fs1 H. split; [eauto | by apply establish_directories_made in H].
  - apply establish_directories_existing.
  - intros Hroot Hdata Hshots Hreports Hlogs.
    pose proof (establish_directories_fresh _ _ Hroot Hdata Hshots Hreports Hlogs) as H.
    eexists. split_and!; [exact H | reflexivity | | eauto].
    apply establish_directories_made in H as (HS & _).
    by apply is_dir_parent in HS.
Qed.

Lemma establish_directories_idempotent_witness :
  stat bare_fs app_root = Ok (Dir true)
  /\ establish_directories app_root bare_fs = Ok established_fs
  /\ establish_directories app_root established_fs = Ok established_fs
  /\ is_dir established_fs (DATA_DIR app_root) = true.
Proof.
  assert (Hroot : stat bare_fs app_root = Ok (Dir true)) by (vm_compute; reflexivity).
  destruct (establish_directories_idempotent app_root bare_fs) as (_ & _ & Hfresh).
  destruct Hfresh as (fs1 & H & -> & Hdata & Htwice);
    [exact Hroot | vm_compute; reflexivity .. |].
  by split_and!.
Defined.

(** * Further properties *)

(** ** [validate_config] and the script entry point *)

Lemma validate_config_printed cfg c :
  printed c (validate_config cfg c).2 = warning_lines cfg.
Proof. rewrite validate_config_run; cbn [snd]. by apply printed_app. Qed.

Lemma main_run cfg c :
  main cfg c =
    (if truthy (OPENAI_API_KEY cfg) then Ok tt else Raise (ValueError openai_error),
     {| stdout :=
          (stdout c ++ warning_lines cfg
             ++ if truthy (OPENAI_API_KEY cfg) then [success_line] else [])%list;
        stderr := stderr c |}).
Proof.
  unfold main, io_bind, print. rewrite validate_config_run.
  fold gemini_warning deepseek_warning. fold (warning_lines cfg).
  destruct (truthy (OPENAI_API_KEY cfg)); cbn.
  - by rewrite <- app_assoc.
  - by rewrite app_nil_r.
Qed.



(** X2: [validate_config] only appends to standard output, at most one
    line, and that line is one of three fixed texts; it prints nothing
    exactly when both optional credentials are non-empty; it never writes
    to standard error. *)
Theorem validate_config_prints_at_most_one_line (cfg : Settings) (c : console) :
  stdout (validate_config cfg c).2
    = (stdout c ++ printed c (validate_config cfg c).2)%list
  /\ (length (printed c (validate_config cfg c).2) <= 1)%nat
  /\ (printed c (validate_config cfg c).2 = []
      <-> truthy (GEMINI_API_KEY cfg) = true /\ truthy (DEEPSEEK_API_KEY cfg) = true)
  /\ (forall line, line ∈ printed c (validate_config cfg c).2 ->
                   line ∈ [gemini_warning; deepseek_warning; both_warnings])
  /\ stderr (validate_config cfg c).2 = stderr c.
Proof.
  rewrite validate_config_printed, validate_config_stderr.
  split_and!; try reflexivity.
  - rewrite validate_config_run; cbn [snd stdout]. reflexivity.
  - unfold warning_lines.
    destruct (truthy (GEMINI_API_KEY cfg)), (truthy (DEEPSEEK_API_KEY cfg)); cbn; lia.
  - unfold warning_lines.
    destruct (truthy (GEMINI_API_KEY cfg)), (truthy (DEEPSEEK_API_KEY cfg));
      split; try done; intros [? ?]; discriminate.
  - unfold warning_lines. intros line Hin.
    destruct (truthy (GEMINI_API_KEY cfg)), (truthy (DEEPSEEK_API_KEY cfg));
      try (by apply elem_of_nil in Hin);
      apply list_elem_of_singleton in Hin as ->;
      repeat (first [apply list_elem_of_here | apply list_elem_of_further]).
Qed.

(** X3: [validate_config] uses its settings only through the truth
    values of the three credentials: on two settings whose credentials are
    empty or absent at the same places it returns or raises alike and
    prints the same lines.  The text of a key and every other setting are
    without influence. *)
Theorem validate_config_reads_truth_values_only (cfg cfg' : Settings) (c : console) :
  truthy (OPENAI_API_KEY cfg) = truthy (OPENAI_API_KEY cfg') ->
  truthy (GEMINI_API_KEY cfg) = truthy (GEMINI_API_KEY cfg') ->
  truthy (DEEPSEEK_API_KEY cfg) = truthy (DEEPSEEK_API_KEY cfg') ->
  validate_config cfg c = validate_config cfg' c.
Proof.
  intros Ho Hg Hd. rewrite !validate_config_run. by rewrite Ho, Hg, Hd.
Qed.

Lemma validate_config_reads_truth_values_only_witness :
  validate_config (set_keys (Some "sk-one") None (Some "") default_settings) empty_console
  = validate_config (set_keys (Some "sk-two") (Some "") None sample_settings) empty_console.
Proof.
  apply validate_config_reads_truth_values_only; reflexivity.
Defined.

(** X4: [validate_config] keeps no state.  A second call, on whatever
    console the first one left, returns or raises as the first did and
    prints the same lines once more. *)
Theorem validate_config_repeats (cfg : Settings) (c : console) :
  (validate_config cfg (validate_config cfg c).2).1 = (validate_config cfg c).1
  /\ printed (validate_config cfg c).2 (validate_config cfg (validate_config cfg c).2).2
     = printed c (validate_config cfg c).2
  /\ stdout (validate_config cfg (validate_config cfg c).2).2
     = (stdout c ++ warning_lines cfg ++ warning_lines cfg)%list.
Proof.
  rewrite !validate_config_printed, !validate_config_outcome.
  split_and!; try reflexivity.
  rewrite (validate_config_run cfg (validate_config cfg c).2); cbn [snd stdout].
  rewrite (validate_config_run cfg c); cbn [snd stdout].
  fold gemini_warning deepseek_warning. fold (warning_lines cfg).
  by rewrite <- app_assoc.
Qed.

(** ** The settings block *)

Lemma first_malformed_None environ vars :
  first_malformed environ vars = None <->
  forall key default, (key, default) ∈ vars ->
                      is_Some (py_int (getenv_default environ key default)).
Proof.
  induction vars as [| [k d] rest IH]; cbn [first_malformed].
  - split; [| done]. intros _ key default Hin. by apply elem_of_nil in Hin.
  - destruct (py_int (getenv_default environ k d)) as [z |] eqn:E.
    + rewrite IH. split.
      * intros H key default [[= -> ->] | Hin]%elem_of_cons; eauto.
      * intros H key default Hin. apply H. by apply list_elem_of_further.
    + split; [discriminate |]. intros H.
      destruct (H k d (list_elem_of_here _ _)) as [z Hz]. congruence.
Qed.

Lemma first_malformed_Some environ vars bad :
  first_malformed environ vars = Some bad ->
  py_int bad = None
  /\ exists key default, (key, default) ∈ vars
                         /\ bad = getenv_default environ key default.
Proof.
  induction vars as [| [k d] rest IH]; cbn [first_malformed]; [discriminate |].
  destruct (py_int (getenv_default environ k d)) as [z |] eqn:E.
  - intros [Hbad (key & default & Hin & ->)]%IH. split; [assumption |].
    exists key, default. split; [by apply list_elem_of_further | reflexivity].
  - intros [= <-]. split; [assumption |].
    exists k, d. split; [apply list_elem_of_here | reflexivity].
Qed.

(** Every default text of the settings block is an integer literal. *)
Lemma numeric_defaults_parse key default :
  (key, default) ∈ numeric_defaults ->
  key ∈ numeric_settings /\ is_Some (py_int default).
Proof.
  unfold numeric_defaults. intros Hin.
  repeat (apply elem_of_cons in Hin as [[= -> ->] | Hin];
          [ split; [| by eexists];
            unfold numeric_settings;
            repeat (first [apply list_elem_of_here | apply list_elem_of_further]) |]).
  by apply elem_of_nil in Hin.
Qed.

Lemma numeric_settings_default key :
  key ∈ numeric_settings -> exists default, (key, default) ∈ numeric_defaults.
Proof.
  unfold numeric_settings, numeric_defaults. intros Hin.
  repeat (apply elem_of_cons in Hin as [-> | Hin];
          [ eexists;
            repeat (first [apply list_elem_of_here | apply list_elem_of_further]) |]).
  by apply elem_of_nil in Hin.
Qed.

(** The settings block raises on the first text that [int] refuses and
    runs to its end when there is none. *)
Lemma resolve_settings_first_malformed environ :
  match first_malformed environ numeric_defaults with
  | Some bad => resolve_settings environ = Raise (ValueError_int bad)
  | None => exists cfg, resolve_settings environ = Ok cfg
  end.
Proof.
  unfold resolve_settings, int, numeric_defaults. cbn [first_malformed].
  step_int environ "MAX_STEPS" "15"; [| reflexivity].
  step_int environ "SCREENSHOT_TIMEOUT" "30000"; [| reflexivity].
  step_int environ "DEFAULT_VIEWPORT_WIDTH" "1920"; [| reflexivity].
  step_int environ "DEFAULT_VIEWPORT_HEIGHT" "1080"; [| reflexivity].
  step_int environ "GRID_SIZE" "100"; [| reflexivity].
  step_int environ "NAVIGATION_TIMEOUT" "30000"; [| reflexivity].
  step_int environ "PAGE_LOAD_WAIT" "2000"; [| reflexivity].
  by eexists.
Qed.

(** X5: the settings block fails for one reason only.  It raises exactly
    when some numeric variable is set to a text that is not an integer
    literal; the exception is then the [ValueError] of [int] on the first
    such text in program order, which is the value of a numeric variable
    of the environment.  No default and no string setting, whatever its
    value, makes it fail. *)
Theorem settings_fail_only_on_malformed_numeric (environ : gmap string string) :
  ((exists cfg, resolve_settings environ = Ok cfg)
   <-> forall name x, name ∈ numeric_settings -> environ !! name = Some x ->
                      is_Some (py_int x))
  /\ (forall e, resolve_settings environ = Raise e
                <-> exists bad, first_malformed environ numeric_defaults = Some bad
                                /\ e = ValueError_int bad)
  /\ (forall bad, first_malformed environ numeric_defaults = Some bad ->
                  py_int bad = None
                  /\ exists name, name ∈ numeric_settings /\ environ !! name = Some bad).
Proof.
  pose proof (resolve_settings_first_malformed environ) as Hrun.
  assert (Hset : forall bad, first_malformed environ numeric_defaults = Some bad ->
                  py_int bad = None
                  /\ exists name, name ∈ numeric_settings /\ environ !! name = Some bad).
  { intros bad (Hbad & key & default & Hin & ->)%first_malformed_Some.
    split; [assumption |].
    destruct (numeric_defaults_parse _ _ Hin) as [Hkey [z Hz]].
    exists key. split; [assumption |]. unfold getenv_default in *.
    destruct (environ !! key); [reflexivity | congruence]. }
  split_and!; [| | exact Hset].
  - split.
    + intros [cfg Hcfg] name x Hin Hx.
      destruct (first_malformed environ numeric_defaults) as [bad |] eqn:E;
        [congruence |].
      destruct (numeric_settings_default _ Hin) as [default Hd].
      rewrite first_malformed_None in E. specialize (E _ _ Hd).
      by rewrite (getenv_default_set _ _ _ _ Hx) in E.
    + intros Hvalid.
      destruct (first_malformed environ numeric_defaults) as [bad |] eqn:E;
        [| assumption].
      destruct (Hset bad eq_refl) as (Hbad & name & Hin & Hx).
      destruct (Hvalid name bad Hin Hx) as [z Hz]. congruence.
  - intros e.
    destruct (first_malformed environ numeric_defaults) as [bad |] eqn:E.
    + rewrite Hrun. split.
      * intros [= <-]. eauto.
      * by intros (bad' & [= <-] & ->).
    + destruct Hrun as [cfg ->]. split; [discriminate |].
      intros (? & ? & _); discriminate.
Qed.

(** X6: the settings block reads the sixteen documented variables and no
    other: two environments that agree on them give the same settings, or
    the same exception. *)
Theorem settings_read_documented_variables_only (environ environ' : gmap string string) :
  (forall name d, (name, d) ∈ documented_defaults -> environ !! name = environ' !! name) ->
  resolve_settings environ = resolve_settings environ'.
Proof.
  intros Hagree.
  assert (E : forall name, name ∈ (documented_defaults.*1) ->
                           environ !! name = environ' !! name).
  { intros name ((name' & d) & -> & Hin)%list_elem_of_fmap. eauto. }
  unfold resolve_settings, getenv, getenv_default.
  repeat match goal with
         | |- context [environ !! ?k] =>
             rewrite (E k)
               by (cbn; repeat (first [apply list_elem_of_here
                                      | apply list_elem_of_further]))
         end.
  reflexivity.
Qed.

Lemma settings_read_documented_variables_only_witness :
  resolve_settings sample_environ_with_path = resolve_settings sample_environ.
Proof.
  apply settings_read_documented_variables_only.
  intros name d Hin. unfold sample_environ_with_path.
  apply lookup_insert_ne. intros <-. unfold documented_defaults in Hin.
  repeat (apply elem_of_cons in Hin as [Hin | Hin]; [discriminate Hin |]).
  by apply elem_of_nil in Hin.
Defined.

(** ** Directory establishment: what it leaves alone, how it fails *)

Lemma only_adds_dirs_refl targets fs : only_adds_dirs targets fs fs.
Proof. split; auto. Qed.

Lemma only_adds_dirs_trans targets fs fs1 fs2 :
  only_adds_dirs targets fs fs1 -> only_adds_dirs targets fs1 fs2 ->
  only_adds_dirs targets fs fs2.
Proof.
  intros [K1 N1] [K2 N2]. split; [auto |].
  intros q n [H | H]%N2; [by apply N1 | by right].
Qed.

Lemma only_adds_dirs_weaken targets targets' fs fs' :
  (forall p, p ∈ targets -> exists p', p' ∈ targets' /\ p `suffix_of` p') ->
  only_adds_dirs targets fs fs' -> only_adds_dirs targets' fs fs'.
Proof.
  intros Hsub [K N]. split; [assumption |].
  intros q n [H | (-> & p & Hp & Hq)]%N; [by left | right].
  split; [reflexivity |].
  destruct (Hsub p Hp) as (p' & Hp' & Hpp'). exists p'. split; [assumption |].
  by etrans.
Qed.

Lemma os_mkdir_adds p fs fs' : os_mkdir p fs = Ok fs' -> only_adds_dirs [p] fs fs'.
Proof.
  intros (Hfree & -> & _)%os_mkdir_Ok. split.
  - intros q n Hq. rewrite lookup_insert_ne; [assumption | congruence].
  - intros q n Hq. destruct (decide (p = q)) as [<- | Hne].
    + rewrite lookup_insert_eq in Hq. injection Hq as <-. right.
      split; [reflexivity |]. exists p. split; [apply list_elem_of_here | done].
    + rewrite lookup_insert_ne in Hq by assumption. by left.
Qed.

Lemma mkdir_here_adds p fs fs' :
  mkdir_here true p fs = Ok fs' -> only_adds_dirs [p] fs fs'.
Proof.
  unfold mkdir_here. destruct (os_mkdir p fs) as [fs1 | e] eqn:Hos.
  - intros [= <-]. by apply os_mkdir_adds.
  - destruct e as [| | []]; cbn [andb]; try discriminate;
      destruct (is_dir fs p); try discriminate;
      intros [= <-]; apply only_adds_dirs_refl.
Qed.

Lemma mkdir_parents_adds p fs fs' :
  mkdir_parents true p fs = Ok fs' -> only_adds_dirs [p] fs fs'.
Proof.
  revert fs fs'. induction p as [| a up IH]; intros fs fs'; cbn [mkdir_parents];
    destruct (os_mkdir _ fs) as [fs1 | e] eqn:Hos.
  1, 3: intros [= <-]; by apply os_mkdir_adds.
  - destruct e as [| | []]; cbn [andb]; try discriminate;
      destruct (is_dir fs []); try discriminate;
      intros [= <-]; apply only_adds_dirs_refl.
  - destruct e as [| | []]; cbn [andb];
      try (destruct (is_dir fs (a :: up)); try discriminate;
           intros [= <-]; apply only_adds_dirs_refl).
    destruct (mkdir_parents true up fs) as [fs1 |] eqn:Hup; cbn [rbind];
      [| discriminate].
    intros Hhere%mkdir_here_adds. apply IH in Hup.
    eapply only_adds_dirs_trans; [| exact Hhere].
    eapply only_adds_dirs_weaken; [| exact Hup].
    intros p ->%list_elem_of_singleton. exists (a :: up).
    split; [apply list_elem_of_here | by apply suffix_cons_r].
Qed.

Lemma only_adds_dirs_one_of p targets fs fs' :
  p ∈ targets -> only_adds_dirs [p] fs fs' -> only_adds_dirs targets fs fs'.
Proof.
  intros Hp. apply only_adds_dirs_weaken.
  intros ? ->%list_elem_of_singleton. by exists p.
Qed.

Lemma establish_directories_adds root fs fs' :
  establish_directories root fs = Ok fs' ->
  only_adds_dirs [SCREENSHOTS_DIR root; REPORTS_DIR root; LOGS_DIR root] fs fs'.
Proof.
  unfold establish_directories, mkdir.
  destruct (mkdir_parents true (SCREENSHOTS_DIR root) fs) as [fs1 |] eqn:H1;
    cbn [rbind]; [| discriminate].
  destruct (mkdir_parents true (REPORTS_DIR root) fs1) as [fs2 |] eqn:H2;
    cbn [rbind]; [| discriminate].
  intros H3.
  apply mkdir_parents_adds in H1, H2, H3.
  eapply only_adds_dirs_trans; [| eapply only_adds_dirs_trans].
  - eapply only_adds_dirs_one_of; [| exact H1]. apply list_elem_of_here.
  - eapply only_adds_dirs_one_of; [| exact H2].
    apply list_elem_of_further, list_elem_of_here.
  - eapply only_adds_dirs_one_of; [| exact H3].
    do 2 apply list_elem_of_further. apply list_elem_of_here.
Qed.

(** Paths that resolved keep resolving, to the same node. *)
Lemma only_adds_dirs_stat targets fs fs' q n :
  only_adds_dirs targets fs fs' -> stat fs q = Ok n -> stat fs' q = Ok n.
Proof.
  intros [K _]. revert n. induction q as [| a up IH]; intros n Hq.
  - apply stat_Ok_lookup in Hq. cbn. by rewrite (K _ _ Hq).
  - apply stat_Ok_lookup in Hq as Hl.
    destruct (stat_Ok_parent _ _ _ _ Hq) as [w Hup].
    rewrite stat_cons, (IH _ Hup). by rewrite (K _ _ Hl).
Qed.

Lemma bare_fs_established :
  establish_directories app_root bare_fs = Ok established_fs.
Proof.
  apply establish_directories_fresh; vm_compute; reflexivity.
Qed.

(** X7: a successful establishment destroys nothing.  Every entry of the
    file system, file or directory, is still there and unchanged, every
    path that resolved resolves to the same node, and each entry that is
    new is a writable directory on the way to one of the three declared
    directories. *)
Theorem establish_directories_only_adds
    (root : Path) (fs fs' : gmap Path node) :
  establish_directories root fs = Ok fs' ->
  (forall q n, fs !! q = Some n -> fs' !! q = Some n)
  /\ (forall q n, stat fs q = Ok n -> stat fs' q = Ok n)
  /\ (forall q n, fs' !! q = Some n -> fs !! q = None ->
        n = Dir true
        /\ (q `suffix_of` SCREENSHOTS_DIR root \/ q `suffix_of` REPORTS_DIR root
            \/ q `suffix_of` LOGS_DIR root)).
Proof.
  intros Hadds%establish_directories_adds. split_and!.
  - apply Hadds.
  - intros q n. by apply only_adds_dirs_stat with (1 := Hadds).
  - intros q n Hnew Hold. destruct Hadds as [_ N].
    destruct (N q n Hnew) as [H | (-> & p & Hp & Hq)]; [congruence |].
    split; [reflexivity |].
    repeat (apply elem_of_cons in Hp as [-> | Hp]; [auto |]).
    by apply elem_of_nil in Hp.
Qed.

Lemma establish_directories_only_adds_witness :
  establish_directories app_root bare_fs = Ok established_fs
  /\ established_fs !! app_root = Some (Dir true)
  /\ (forall q n, established_fs !! q = Some n -> bare_fs !! q = None -> n = Dir true).
Proof.
  split; [apply bare_fs_established |].
  destruct (establish_directories_only_adds app_root bare_fs established_fs
              bare_fs_established) as (Hkeep & _ & Hnew).
  split.
  - apply Hkeep. vm_compute. reflexivity.
  - intros q n Hq Hfree. by destruct (Hnew q n Hq Hfree).
Defined.

Lemma stat_Raise fs p e : stat fs p = Raise e -> exists n, e = OSError n.
Proof.
  revert e. induction p as [| a up IH]; intros e.
  - cbn. destruct (fs !! []); [discriminate |]. intros [= <-]. eauto.
  - rewrite stat_cons. destruct (stat fs up) as [[| w] | e'] eqn:Hup.
    + intros [= <-]. eauto.
    + destruct (fs !! (a :: up)); [discriminate |]. intros [= <-]. eauto.
    + intros [= <-]. eauto.
Qed.

Lemma os_mkdir_Raise p fs e : os_mkdir p fs = Raise e -> exists n, e = OSError n.
Proof.
  unfold os_mkdir. destruct p as [| a up].
  - destruct (fs !! []); intros [= <-]; eauto.
  - destruct (stat fs up) as [[| w] | e'] eqn:Hup.
    + intros [= <-]. eauto.
    + destruct (fs !! (a :: up)); [intros [= <-]; eauto |].
      destruct w; [discriminate |]. intros [= <-]. eauto.
    + intros [= <-]. by apply stat_Raise in Hup.
Qed.

Lemma mkdir_here_Raise exist_ok p fs e :
  mkdir_here exist_ok p fs = Raise e -> exists n, e = OSError n.
Proof.
  unfold mkdir_here. destruct (os_mkdir p fs) as [fs1 | e'] eqn:Hos; [discriminate |].
  apply os_mkdir_Raise in Hos as [n ->].
  destruct n; try (intros [= <-]; eauto);
    destruct (exist_ok && is_dir fs p); try discriminate; intros [= <-]; eauto.
Qed.

Lemma mkdir_parents_Raise exist_ok p fs e :
  mkdir_parents exist_ok p fs = Raise e -> exists n, e = OSError n.
Proof.
  revert exist_ok fs e. induction p as [| a up IH]; intros exist_ok fs e;
    cbn [mkdir_parents];
    destruct (os_mkdir _ fs) as [fs1 | e'] eqn:Hos; try discriminate;
    apply os_mkdir_Raise in Hos as [n ->];
    destruct n; try (intros [= <-]; eauto);
    try (destruct (exist_ok && is_dir fs _); try discriminate; intros [= <-]; by eauto).
  destruct (mkdir_parents true up fs) as [fs1 | e'] eqn:Hup; cbn [rbind].
  - apply mkdir_here_Raise.
  - intros [= <-]. by apply IH in Hup.
Qed.

(** Whatever stops the establishment is an [OSError]. *)
Lemma establish_directories_Raise root fs e :
  establish_directories root fs = Raise e -> exists n, e = OSError n.
Proof.
  unfold establish_directories, mkdir.
  destruct (mkdir_parents true (SCREENSHOTS_DIR root) fs) as [fs1 | e1] eqn:H1;
    cbn [rbind]; [| intros [= <-]; by apply mkdir_parents_Raise in H1].
  destruct (mkdir_parents true (REPORTS_DIR root) fs1) as [fs2 | e2] eqn:H2;
    cbn [rbind]; [| intros [= <-]; by apply mkdir_parents_Raise in H2].
  apply mkdir_parents_Raise.
Qed.

(** X8: a regular file where a directory is wanted stops the
    establishment.  If [data], [data/screenshots], [data/reports] or
    [logs] is a regular file, the three [mkdir] calls do not run to their
    end: an [OSError] is raised, although [exist_ok] is set. *)
Theorem establish_directories_blocked_by_file
    (root : Path) (fs : gmap Path node) (p : Path) :
  p ∈ [DATA_DIR root; SCREENSHOTS_DIR root; REPORTS_DIR root; LOGS_DIR root] ->
  fs !! p = Some File ->
  exists n, establish_directories root fs = Raise (OSError n).
Proof.
  intros Hp Hfile.
  destruct (establish_directories root fs) as [fs' | e] eqn:Hrun.
  - exfalso.
    pose proof (establish_directories_made _ _ _ Hrun) as (HS & HR & HL).
    pose proof (is_dir_parent _ _ _ HS) as HD.
    apply establish_directories_adds in Hrun as [Hkeep _].
    apply Hkeep in Hfile.
    assert (Hdir : is_dir fs' p = true).
    { repeat (apply elem_of_cons in Hp as [-> | Hp]; [assumption |]).
      by apply elem_of_nil in Hp. }
    apply is_dir_stat in Hdir as [w Hw]. apply stat_Ok_lookup in Hw. congruence.
  - apply establish_directories_Raise in Hrun as [n ->]. eauto.
Qed.

Lemma establish_directories_blocked_by_file_witness :
  LOGS_DIR app_root
    ∈ [DATA_DIR app_root; SCREENSHOTS_DIR app_root; REPORTS_DIR app_root;
       LOGS_DIR app_root]
  /\ logs_is_file_fs !! LOGS_DIR app_root = Some File
  /\ exists n, establish_directories app_root logs_is_file_fs = Raise (OSError n).
Proof.
  assert (Hp : LOGS_DIR app_root
                 ∈ [DATA_DIR app_root; SCREENSHOTS_DIR app_root;
                    REPORTS_DIR app_root; LOGS_DIR app_root])
    by (do 3 apply list_elem_of_further; apply list_elem_of_here).
  assert (Hfile : logs_is_file_fs !! LOGS_DIR app_root = Some File)
    by apply lookup_insert_eq.
  split_and!; [exact Hp | exact Hfile |].
  exact (establish_directories_blocked_by_file app_root logs_is_file_fs _ Hp Hfile).
Defined.

(** X9: which exception.  With [data] a regular file the first [mkdir]
    raises [NotADirectoryError]; with the two data directories in place
    and [logs] a regular file the third raises [FileExistsError]; with the
    application directory read-only and [data] missing the first raises
    [PermissionError]. *)
Theorem establish_directories_error_classes (root : Path) (fs : gmap Path node) :
  (stat fs (DATA_DIR root) = Ok File ->
   establish_directories root fs = Raise (OSError ENOTDIR))
  /\ (is_dir fs (SCREENSHOTS_DIR root) = true ->
      is_dir fs (REPORTS_DIR root) = true ->
      stat fs (LOGS_DIR root) = Ok File ->
      establish_directories root fs = Raise (OSError EEXIST))
  /\ (stat fs root = Ok (Dir false) ->
      fs !! DATA_DIR root = None ->
      establish_directories root fs = Raise (OSError EACCES)).
Proof.
  unfold establish_directories, mkdir, SCREENSHOTS_DIR, REPORTS_DIR, LOGS_DIR,
    DATA_DIR, joinpath.
  split_and!.
  - intros Hdata.
    assert (Hshots : os_mkdir ("screenshots" :: "data" :: root) fs
                     = Raise (OSError ENOTDIR))
      by (unfold os_mkdir; by rewrite Hdata).
    assert (Hdir : is_dir fs ("screenshots" :: "data" :: root) = false)
      by (unfold is_dir; rewrite (stat_cons fs "screenshots"); by rewrite Hdata).
    cbn [mkdir_parents]. by rewrite Hshots, Hdir.
  - intros HS HR Hlogs.
    rewrite (mkdir_parents_existing _ _ HS); cbn [rbind].
    rewrite (mkdir_parents_existing _ _ HR); cbn [rbind].
    destruct (stat_Ok_parent _ _ _ _ Hlogs) as [w Hroot].
    apply stat_Ok_lookup in Hlogs as Hl.
    cbn [mkdir_parents]. unfold os_mkdir, is_dir.
    by rewrite Hroot, Hl, Hlogs.
  - intros Hroot Hdata.
    assert (Hmissing : stat fs ("data" :: root) = Raise (OSError ENOENT))
      by (by rewrite stat_cons, Hroot, Hdata).
    assert (Hshots : os_mkdir ("screenshots" :: "data" :: root) fs
                     = Raise (OSError ENOENT))
      by (unfold os_mkdir; by rewrite Hmissing).
    assert (Hmk : os_mkdir ("data" :: root) fs = Raise (OSError EACCES))
      by (unfold os_mkdir; by rewrite Hroot, Hdata).
    assert (Hdir : is_dir fs ("data" :: root) = false)
      by (unfold is_dir; by rewrite Hmissing).
    cbn [mkdir_parents]. by rewrite Hshots, Hmk, Hdir.
Qed.

Lemma establish_directories_error_classes_witness :
  establish_directories app_root data_is_file_fs = Raise (OSError ENOTDIR)
  /\ establish_directories app_root logs_is_file_established_fs
     = Raise (OSError EEXIST)
  /\ establish_directories app_root read_only_fs = Raise (OSError EACCES).
Proof.
  split_and!.
  - apply (establish_directories_error_classes app_root data_is_file_fs).
    vm_compute. reflexivity.
  - apply (establish_directories_error_classes app_root logs_is_file_established_fs);
      vm_compute; reflexivity.
  - apply (establish_directories_error_classes app_root read_only_fs);
      vm_compute; reflexivity.
Defined.

(** A directory whose parent is a writable directory gets made, or is
    there already. *)
Lemma mkdir_parents_leaf a up fs :
  stat fs up = Ok (Dir true) ->
  is_dir fs (a :: up) = true \/ fs !! (a :: up) = None ->
  exists fs', mkdir_parents true (a :: up) fs = Ok fs'.
Proof.
  intros Hup [Hdir | Hfree].
  - exists fs. by apply mkdir_parents_existing.
  - eexists. cbn [mkdir_parents]. by rewrite (os_mkdir_fresh _ _ _ Hup Hfree).
Qed.

(** A directory whose parent is missing as well gets made together with
    its parent. *)
Lemma mkdir_parents_two_levels a b up fs :
  stat fs up = Ok (Dir true) ->
  fs !! (b :: up) = None ->
  fs !! (a :: b :: up) = None ->
  exists fs', mkdir_parents true (a :: b :: up) fs = Ok fs'.
Proof.
  intros Hup Hb Ha.
  assert (Hmissing : os_mkdir (a :: b :: up) fs = Raise (OSError ENOENT))
    by (unfold os_mkdir; by rewrite (stat_cons fs b), Hup, Hb).
  assert (Hb1 : stat (<[b :: up := Dir true]> fs) (b :: up) = Ok (Dir true))
    by by apply stat_fresh_dir.
  assert (Ha1 : <[b :: up := Dir true]> fs !! (a :: b :: up) = None).
  { rewrite lookup_insert_ne; [assumption |].
    intros Heq. apply (f_equal length) in Heq. cbn in Heq. lia. }
  eexists. cbn [mkdir_parents]. rewrite Hmissing.
  rewrite (os_mkdir_fresh _ _ _ Hup Hb); cbn [rbind]. unfold mkdir_here.
  by rewrite (os_mkdir_fresh _ _ _ Hb1 Ha1).
Qed.

(** A free path off the way to the target stays free. *)
Lemma only_adds_dirs_free p fs fs' q :
  only_adds_dirs [p] fs fs' -> fs !! q = None -> ~ q `suffix_of` p ->
  fs' !! q = None.
Proof.
  intros [_ N] Hfree Hoff. destruct (fs' !! q) as [n |] eqn:Hq; [| reflexivity].
  destruct (N q n Hq) as [H | (_ & p' & ->%list_elem_of_singleton & Hsuf)];
    [congruence | contradiction].
Qed.

Lemma reports_off_screenshots root :
  ~ REPORTS_DIR root `suffix_of` SCREENSHOTS_DIR root.
Proof.
  intros H. apply suffix_length_eq in H; [discriminate H | reflexivity].
Qed.

Lemma logs_off_data root a : ~ LOGS_DIR root `suffix_of` (DATA_DIR root / a)%path.
Proof.
  unfold LOGS_DIR, DATA_DIR, joinpath.
  intros [H | [H | H]%suffix_cons_inv]%suffix_cons_inv.
  - apply (f_equal length) in H. cbn in H. lia.
  - discriminate H.
  - by apply suffix_cons_not in H.
Qed.

(** X10: the establishment completes a partial layout.  Under a writable
    application directory, with each of the four directories either in
    place or absent ([data], where it is in place, writable), the three
    [mkdir] calls run to their end and leave the three declared directories
    in place. *)
Theorem establish_directories_completes_partial_layout
    (root : Path) (fs : gmap Path node) :
  stat fs root = Ok (Dir true) ->
  stat fs (DATA_DIR root) = Ok (Dir true) \/ fs !! DATA_DIR root = None ->
  is_dir fs (SCREENSHOTS_DIR root) = true \/ fs !! SCREENSHOTS_DIR root = None ->
  is_dir fs (REPORTS_DIR root) = true \/ fs !! REPORTS_DIR root = None ->
  is_dir fs (LOGS_DIR root) = true \/ fs !! LOGS_DIR root = None ->
  exists fs',
    establish_directories root fs = Ok fs'
    /\ is_dir fs' (SCREENSHOTS_DIR root) = true
    /\ is_dir fs' (REPORTS_DIR root) = true
    /\ is_dir fs' (LOGS_DIR root) = true.
Proof.
  intros Hroot HD HS HR HL.
  (* data/screenshots *)
  assert (exists fs1, mkdir_parents true (SCREENSHOTS_DIR root) fs = Ok fs1)
    as [fs1 H1].
  { destruct HD as [HD | HD].
    - by apply mkdir_parents_leaf.
    - destruct HS as [HS | HS].
      + unfold SCREENSHOTS_DIR, DATA_DIR, joinpath in *.
        apply is_dir_parent, is_dir_stat in HS as [w Hw].
        apply stat_Ok_lookup in Hw. congruence.
      + by apply mkdir_parents_two_levels. }
  pose proof (mkdir_parents_made _ _ _ H1) as [S1 K1].
  pose proof (mkdir_parents_adds _ _ _ H1) as A1.
  assert (HD1 : stat fs1 (DATA_DIR root) = Ok (Dir true)).
  { unfold SCREENSHOTS_DIR, DATA_DIR, joinpath in *.
    pose proof (is_dir_parent _ _ _ S1) as [w Hw]%is_dir_stat.
    apply stat_Ok_lookup in Hw as Hl. destruct A1 as [_ N1].
    destruct (N1 _ _ Hl) as [Hold | [[= ->] _]]; [| exact Hw].
    destruct HD as [HD | HD]; [| congruence].
    apply stat_Ok_lookup in HD.
    assert (w = true) as -> by congruence. exact Hw. }
  assert (HR1 : is_dir fs1 (REPORTS_DIR root) = true
                \/ fs1 !! REPORTS_DIR root = None).
  { destruct HR as [HR | HR]; [left; auto | right].
    eapply only_adds_dirs_free; eauto using reports_off_screenshots. }
  (* data/reports *)
  destruct (mkdir_parents_leaf "reports" _ _ HD1 HR1) as [fs2 H2].
  change ("reports" :: DATA_DIR root) with (REPORTS_DIR root) in H2.
  pose proof (mkdir_parents_made _ _ _ H2) as [R2 K2].
  pose proof (mkdir_parents_adds _ _ _ H2) as A2.
  assert (Hroot2 : stat fs2 root = Ok (Dir true))
    by eauto using only_adds_dirs_stat.
  assert (HL2 : is_dir fs2 (LOGS_DIR root) = true \/ fs2 !! LOGS_DIR root = None).
  { destruct HL as [HL | HL]; [left; auto | right].
    eapply only_adds_dirs_free; [exact A2 | | apply logs_off_data].
    eapply only_adds_dirs_free; [exact A1 | exact HL | apply logs_off_data]. }
  (* logs *)
  destruct (mkdir_parents_leaf "logs" _ _ Hroot2 HL2) as [fs3 H3].
  change ("logs" :: root) with (LOGS_DIR root) in H3.
  pose proof (mkdir_parents_made _ _ _ H3) as [L3 K3].
  exists fs3. unfold establish_directories, mkdir.
  rewrite H1; cbn [rbind]. rewrite H2; cbn [rbind].
  split_and!; auto.
Qed.

Lemma establish_directories_completes_partial_layout_witness :
  stat data_only_fs app_root = Ok (Dir true)
  /\ exists fs',
       establish_directories app_root data_only_fs = Ok fs'
       /\ is_dir fs' (SCREENSHOTS_DIR app_root) = true
       /\ is_dir fs' (REPORTS_DIR app_root) = true
       /\ is_dir fs' (LOGS_DIR app_root) = true.
Proof.
  assert (Hroot : stat data_only_fs app_root = Ok (Dir true))
    by (vm_compute; reflexivity).
  split; [exact Hroot |].
  apply (establish_directories_completes_partial_layout app_root data_only_fs Hroot).
  - left. vm_compute. reflexivity.
  - right. vm_compute. reflexivity.
  - right. vm_compute. reflexivity.
  - right. vm_compute. reflexivity.
Defined.

(** ** From the environment to the script *)

(** X11: the script, end to end.  The script returns exactly when the
    directories get established, the settings block runs to its end, the
    logging set-up completes and the environment, override file included,
    holds a non-empty OPENAI_API_KEY.  When the import gets through, the
    script warns about an optional key exactly when the environment holds
    none or an empty one; when the import fails, at the directories, the
    settings or the logging set-up, nothing is printed. *)
Theorem script_outcome_from_environment
    (basicConfig : string -> Path -> gmap Path node -> option (gmap Path node))
    (dotenv : gmap string string) (root : Path) (fs : gmap Path node)
    (environ : gmap string string) (c : console) :
  ((script basicConfig dotenv root fs environ c).1 = Returned
   <-> exists fs1 cfg,
         establish_directories root fs = Ok fs1
         /\ resolve_settings (load_dotenv dotenv environ) = Ok cfg
         /\ is_Some (basicConfig (LOG_LEVEL cfg) (LOG_FILE root) fs1)
         /\ exists k, load_dotenv dotenv environ !! "OPENAI_API_KEY" = Some k
                      /\ k <> "")
  /\ (forall fs1 cfg,
        establish_directories root fs = Ok fs1 ->
        resolve_settings (load_dotenv dotenv environ) = Ok cfg ->
        is_Some (basicConfig (LOG_LEVEL cfg) (LOG_FILE root) fs1) ->
        (existsb (mentions "GEMINI_API_KEY")
           (printed c (script basicConfig dotenv root fs environ c).2) = true
         <-> load_dotenv dotenv environ !! "GEMINI_API_KEY" = None
             \/ load_dotenv dotenv environ !! "GEMINI_API_KEY" = Some "")
        /\ (existsb (mentions "DEEPSEEK_API_KEY")
              (printed c (script basicConfig dotenv root fs environ c).2) = true
            <-> load_dotenv dotenv environ !! "DEEPSEEK_API_KEY" = None
                \/ load_dotenv dotenv environ !! "DEEPSEEK_API_KEY" = Some ""))
  /\ ((forall fs1 cfg,
         establish_directories root fs = Ok fs1 ->
         resolve_settings (load_dotenv dotenv environ) = Ok cfg ->
         basicConfig (LOG_LEVEL cfg) (LOG_FILE root) fs1 = None) ->
      (script basicConfig dotenv root fs environ c).1 <> Returned
      /\ printed c (script basicConfig dotenv root fs environ c).2 = []).
Proof.
  assert (Hnone : printed c c = []) by apply drop_all.
  unfold script, module_body.
  destruct (establish_directories root fs) as [fs1 | e1] eqn:Hdirs; cbn [rbind].
  2: { split_and!.
       - split; [discriminate |]. intros (? & ? & ? & _); discriminate.
       - intros ? ? ?; discriminate.
       - intros _. by split. }
  destruct (resolve_settings (load_dotenv dotenv environ)) as [cfg | e2] eqn:Hcfg;
    cbn [rbind].
  2: { split_and!.
       - split; [discriminate |]. intros (? & ? & _ & ? & _); discriminate.
       - intros ? ? _ ?; discriminate.
       - intros _. by split. }
  pose proof Hcfg as (Ho & _ & Hg & _ & Hd & _)%resolve_settings_Ok.
  destruct (basicConfig (LOG_LEVEL cfg) (LOG_FILE root) fs1) as [fs2 |] eqn:Hlog.
  2: { split_and!.
       - split; [discriminate |].
         intros (? & ? & [= <-] & [= <-] & Hsome & _).
         rewrite Hlog in Hsome. by destruct Hsome.
       - intros ? ? [= <-] [= <-] Hsome. rewrite Hlog in Hsome. by destruct Hsome.
       - intros _. by split. }
  rewrite main_run.
  split_and!.
  - destruct (truthy (OPENAI_API_KEY cfg)) eqn:Hkey; cbn [fst]; split.
    + intros _. exists fs1, cfg. split_and!; [reflexivity .. | by eexists |].
      rewrite <- Ho. destruct (OPENAI_API_KEY cfg) as [[| a k] |]; try discriminate.
      exists (String a k). by split.
    + reflexivity.
    + discriminate.
    + intros (? & ? & _ & [= <-] & _ & k & Hk & Hne).
      rewrite <- Ho in Hk. rewrite Hk in Hkey. by destruct k.
  - intros ? ? [= <-] [= <-] _.
    destruct (truthy (OPENAI_API_KEY cfg)); cbn [fst snd];
      erewrite printed_app by reflexivity;
      rewrite !existsb_app; unfold warning_lines; rewrite Hg, Hd;
      destruct (load_dotenv dotenv environ !! "GEMINI_API_KEY") as [[| ? ?] |],
        (load_dotenv dotenv environ !! "DEEPSEEK_API_KEY") as [[| ? ?] |];
      cbn; split_and!; split; try discriminate;
      try (intros [? | ?]; discriminate); auto.
  - intros Hfail. specialize (Hfail fs1 cfg eq_refl eq_refl). congruence.
Qed.

Lemma script_outcome_from_environment_witness :
  (script logging_completes ∅ app_root bare_fs sample_environ empty_console).1 = Returned
  /\ (script logging_refuses_debug ∅ app_root bare_fs
        (<["LOG_LEVEL" := "debug"]> sample_environ) empty_console)
     = (RaisedByLogging, empty_console).
Proof.
  split.
  - apply (script_outcome_from_environment logging_completes ∅ app_root bare_fs
             sample_environ empty_console).
    exists established_fs, sample_settings. split_and!.
    + apply bare_fs_established.
    + by vm_compute.
    + by eexists.
    + exists "sk-test". split; [by vm_compute | discriminate].
  - by vm_compute.
Defined.

(** ** Static reference data, continued *)

(** X12: the sentiment labels are exactly POSITIVE, NEUTRAL and NEGATIVE,
    with the scores 1, 0 and -1: different labels have different scores,
    and the score of POSITIVE is the opposite of that of NEGATIVE. *)
Theorem sentiment_labels_scores :
  dom SENTIMENT_LABELS = ({[ "POSITIVE"; "NEUTRAL"; "NEGATIVE" ]} : gset string)
  /\ SENTIMENT_LABELS !! "POSITIVE" = Some 1
  /\ SENTIMENT_LABELS !! "NEUTRAL" = Some 0
  /\ SENTIMENT_LABELS !! "NEGATIVE" = Some (-1)
  /\ (forall a b score,
        SENTIMENT_LABELS !! a = Some score -> SENTIMENT_LABELS !! b = Some score ->
        a = b).
Proof.
  split_and!.
  - unfold SENTIMENT_LABELS. rewrite !dom_insert_L, dom_singleton_L. set_solver.
  - by vm_compute.
  - by vm_compute.
  - by vm_compute.
  - intros a b score Ha Hb. unfold SENTIMENT_LABELS in *.
    repeat (apply lookup_insert_Some in Ha as [[<- <-] | [_ Ha]]);
      try (apply lookup_singleton_Some in Ha as [<- <-]);
      repeat (apply lookup_insert_Some in Hb as [[<- Hb] | [_ Hb]]);
      try (apply lookup_singleton_Some in Hb as [<- Hb]);
      first [reflexivity | discriminate Hb].
Qed.

(** X13: every persona names its devices among [mobile], [tablet] and
    [desktop], without repetition and with [desktop] among them, has four
    characteristics, five goals and four pain points, a positive age and a
    behavioural prompt that is not empty. *)
Theorem personas_devices_and_sizes (key : string) (persona : Persona) :
  PERSONAS !! key = Some persona ->
  (forall device, device ∈ devices persona ->
                  device ∈ ["mobile"; "tablet"; "desktop"])
  /\ "desktop" ∈ devices persona
  /\ NoDup (devices persona)
  /\ length (characteristics persona) = 4%nat
  /\ length (goals persona) = 5%nat
  /\ length (pain_points persona) = 4%nat
  /\ 0 < age persona
  /\ system_prompt persona <> "".
Proof.
  assert (Hdev : forall l : list string,
             bool_decide (l ⊆ ["mobile"; "tablet"; "desktop"]) = true ->
             forall device, device ∈ l -> device ∈ ["mobile"; "tablet"; "desktop"])
    by (intros l H%bool_decide_eq_true; apply H).
  intros H. unfold PERSONAS in H.
  apply lookup_insert_Some in H as [[_ <-] | [_ H]];
    [| apply lookup_insert_Some in H as [[_ <-] | [_ H]];
       [| apply lookup_singleton_Some in H as [_ <-]]].
  all: split_and!;
    [ apply Hdev; by vm_compute
    | apply (bool_decide_unpack _); by vm_compute
    | apply (bool_decide_unpack _); by vm_compute
    | reflexivity | reflexivity | reflexivity | reflexivity | discriminate ].
Qed.

Lemma personas_devices_and_sizes_witness :
  PERSONAS !! "applicant" = Some persona_applicant
  /\ "desktop" ∈ devices persona_applicant
  /\ length (goals persona_applicant) = 5%nat.
Proof.
  assert (H : PERSONAS !! "applicant" = Some persona_applicant) by (by vm_compute).
  split; [exact H |].
  destruct (personas_devices_and_sizes "applicant" persona_applicant H)
    as (_ & Hdesktop & _ & _ & Hgoals & _).
  by split.
Defined.

(** ** The override file *)

Lemma load_dotenv_lookup dotenv environ name :
  load_dotenv dotenv environ !! name =
    match environ !! name with
    | Some x => Some x
    | None => dotenv !! name
    end.
Proof.
  unfold load_dotenv. rewrite lookup_union.
  by destruct (environ !! name), (dotenv !! name).
Qed.

(** X14: three levels of precedence.  With the override file loaded, a
    documented setting takes the value of the process environment when the
    variable is set there, else the value of the override file when the
    file assigns it, else the documented default. *)
Theorem settings_precedence_with_override_file
    (dotenv environ : gmap string string) (cfg : Settings)
    (name : string) (d : value) :
  resolve_settings (load_dotenv dotenv environ) = Ok cfg ->
  (name, d) ∈ documented_defaults ->
  (forall x v, environ !! name = Some x -> coerce d x = Some v ->
               setting cfg name = Some v)
  /\ (forall x v, environ !! name = None -> dotenv !! name = Some x ->
                  coerce d x = Some v -> setting cfg name = Some v)
  /\ (environ !! name = None -> dotenv !! name = None -> setting cfg name = Some d).
Proof.
  intros Hcfg Hin.
  destruct (resolve_settings_precedence _ _ _ _ Hcfg Hin) as [Hunset Hset].
  split_and!.
  - intros x v Hx Hv. apply (Hset x v); [| assumption].
    by rewrite load_dotenv_lookup, Hx.
  - intros x v Hx Hf Hv. apply (Hset x v); [| assumption].
    by rewrite load_dotenv_lookup, Hx.
  - intros Hx Hf. apply Hunset. by rewrite load_dotenv_lookup, Hx.
Qed.

Lemma settings_precedence_with_override_file_witness :
  exists cfg,
    resolve_settings (load_dotenv sample_dotenv blank_key_environ) = Ok cfg
    /\ setting cfg "MAX_STEPS" = Some (VInt 7)
    /\ setting cfg "OPENAI_API_KEY" = Some (VStr "")
    /\ setting cfg "GRID_SIZE" = Some (VInt 100).
Proof.
  destruct (resolve_settings (load_dotenv sample_dotenv blank_key_environ))
    as [cfg | e] eqn:Hcfg; [| by vm_compute in Hcfg].
  exists cfg. split; [reflexivity |].
  assert (Hsteps : ("MAX_STEPS", VInt 15) ∈ documented_defaults)
    by (unfold documented_defaults;
        repeat (first [apply list_elem_of_here | apply list_elem_of_further])).
  assert (Hkey : ("OPENAI_API_KEY", VNone) ∈ documented_defaults)
    by apply list_elem_of_here.
  assert (Hgrid : ("GRID_SIZE", VInt 100) ∈ documented_defaults)
    by (unfold documented_defaults;
        repeat (first [apply list_elem_of_here | apply list_elem_of_further])).
  destruct (settings_precedence_with_override_file _ _ _ _ _ Hcfg Hsteps)
    as (_ & Hfile & _).
  destruct (settings_precedence_with_override_file _ _ _ _ _ Hcfg Hkey)
    as (Henv & _ & _).
  destruct (settings_precedence_with_override_file _ _ _ _ _ Hcfg Hgrid)
    as (_ & _ & Hdefault).
  split_and!.
  - apply (Hfile "7"); by vm_compute.
  - apply (Henv ""); by vm_compute.
  - apply Hdefault; by vm_compute.
Defined.

(** X15: an empty OPENAI_API_KEY in the process environment hides the key
    of the override file.  Whatever the file assigns, the settings hold the
    empty key and [validate_config] raises. *)
Theorem blank_environment_key_hides_file_key
    (dotenv environ : gmap string string) (cfg : Settings) (c : console) :
  environ !! "OPENAI_API_KEY" = Some "" ->
  resolve_settings (load_dotenv dotenv environ) = Ok cfg ->
  OPENAI_API_KEY cfg = Some ""
  /\ (validate_config cfg c).1 = Raise (ValueError openai_error).
Proof.
  intros Hkey (Ho & _)%resolve_settings_Ok.
  rewrite load_dotenv_lookup, Hkey in Ho.
  split; [assumption |]. by rewrite validate_config_outcome, Ho.
Qed.

Lemma blank_environment_key_hides_file_key_witness :
  sample_dotenv !! "OPENAI_API_KEY" = Some "sk-from-file"
  /\ exists cfg,
       resolve_settings (load_dotenv sample_dotenv blank_key_environ) = Ok cfg
       /\ (validate_config cfg empty_console).1 = Raise (ValueError openai_error).
Proof.
  split; [by vm_compute |].
  destruct (resolve_settings (load_dotenv sample_dotenv blank_key_environ))
    as [cfg | e] eqn:Hcfg; [| by vm_compute in Hcfg].
  exists cfg. split; [reflexivity |].
  apply (blank_environment_key_hides_file_key sample_dotenv blank_key_environ cfg
           empty_console); [by vm_compute | exact Hcfg].
Defined.
